(** * FreeStyle Lite driver: the memory-dump decoder

    A shallow embedding of [glucometerutils/drivers/fslite.py]: the line
    patterns, the month table, the info-block and reading-log parsers, the
    response assembler and the checksum verification of
    [_fetch_device_information], followed by the properties of the decoder.

    Python text is [string] (the lines are ASCII-decoded by the driver, so
    [ord] is the byte value), Python integers are [Z], a raised exception
    is a value of [exn], and the records handed to [logging] are collected
    in a log that every computation carries along. *)

From Stdlib Require Import String Ascii List ZArith Lia Bool DecimalString.
Import ListNotations.

Local Open Scope char_scope.
Local Open Scope string_scope.
Local Open Scope list_scope.
Local Open Scope Z_scope.

Set Implicit Arguments.

(* ================================================================= *)
(** ** Exceptions, the log and the monad of the driver *)

(** Where a [ValueError] comes from. *)
Inductive value_error :=
| BadFloat (s : string)        (* float(s) on text that is no number *)
| BadInt (s : string)          (* int(s) on text that is no integer *)
| BadUnpack (n : nat)          (* unpacking a sequence of the wrong length *)
| BadDate.                     (* datetime(...) on a field out of range *)

Inductive exn :=
| InvalidResponse (response : string)       (* exceptions.InvalidResponse *)
| InvalidChecksum (expected gotten : Z)     (* exceptions.InvalidChecksum *)
| KeyError (key : string)
| IndexError
| ValueError (why : value_error)
| UnboundLocalError (name : string).

Inductive level := DEBUG | WARNING.

(** A call [logging.debug(msg, data)] or [logging.warning(msg)]: the
    message and the arguments handed over unformatted. *)
Record LogRecord := mkLog {
  levelname : level;
  msg : string;
  args : list (list string)
}.

Inductive outcome (A : Type) :=
| Return (a : A)
| Raise (e : exn).
Arguments Raise {A} e.

(** A computation: what was logged, then what was returned or raised. *)
Definition M (A : Type) : Type := (list LogRecord * outcome A)%type.

Definition ret {A} (a : A) : M A := ([], Return a).
Definition raise {A} (e : exn) : M A := ([], Raise e).
Definition lift {A} (o : outcome A) : M A := ([], o).

Definition bind {A B} (m : M A) (f : A -> M B) : M B :=
  match m with
  | (l, Raise e) => (l, Raise e)
  | (l, Return a) => let (l', r) := f a in (l ++ l', r)
  end.

Notation "x <- m ;; k" := (bind m (fun x => k))
  (at level 61, m at next level, right associativity).
Notation "m ;;; k" := (bind m (fun _ => k))
  (at level 61, right associativity).

Definition logging_debug (m : string) (data : list string) : M unit :=
  ([mkLog DEBUG m [data]], Return tt).
Definition logging_warning (m : string) : M unit :=
  ([mkLog WARNING m []], Return tt).

Fixpoint mapM {A B} (f : A -> M B) (l : list A) : M (list B) :=
  match l with
  | [] => ret []
  | a :: l' => b <- f a ;; bs <- mapM f l' ;; ret (b :: bs)
  end.

Definition result {A} (m : M A) : outcome A := snd m.
Definition logged {A} (m : M A) : list LogRecord := fst m.

(* ================================================================= *)
(** ** The Python built-ins the driver calls *)

Module Py.

Definition LF : ascii := "010".
Definition CR : ascii := "013".

Definition ord (c : ascii) : Z := Z.of_N (N_of_ascii c).

Definition len {A} (l : list A) : Z := Z.of_nat (length l).

(** [l[i]], a negative index counting from the end. *)
Definition getitem {A} (l : list A) (i : Z) : outcome A :=
  let i' := if i <? 0 then i + len l else i in
  if (0 <=? i') && (i' <? len l) then
    match nth_error l (Z.to_nat i') with
    | Some a => Return a
    | None => Raise IndexError
    end
  else Raise IndexError.

(** [range(a, b)] *)
Definition range (a b : Z) : list Z :=
  map (fun k => a + Z.of_nat k) (seq 0 (Z.to_nat (b - a))).

(** [sep.join(l)] *)
Fixpoint join (sep : string) (l : list string) : string :=
  match l with
  | [] => ""
  | [s] => s
  | s :: l' => s ++ sep ++ join sep l'
  end.

(** The characters of a string, each as a string of its own. *)
Fixpoint chars (s : string) : list string :=
  match s with
  | "" => []
  | String c s' => String c "" :: chars s'
  end.

(** [s.split(c)] for a one-character separator. *)
Fixpoint split_acc (c : ascii) (cur : string) (s : string) : list string :=
  match s with
  | "" => [cur]
  | String a s' =>
      if Ascii.eqb a c then cur :: split_acc c "" s'
      else split_acc c (cur ++ String a "") s'
  end.
Definition split (c : ascii) (s : string) : list string := split_acc c "" s.

(** [sum(ord(c) for c in s)] *)
Fixpoint sum_ord (s : string) : Z :=
  match s with
  | "" => 0
  | String c s' => ord c + sum_ord s'
  end.

Definition in_range (lo hi c : ascii) : bool :=
  (ord lo <=? ord c) && (ord c <=? ord hi).

Definition is_digit (c : ascii) : bool := in_range "0" "9" c.

(** White space as [int] and [float] skip it, among the ASCII characters
    up to the space: blank, tab, line feed, vertical tab, form feed and
    carriage return. *)
Definition is_space (c : ascii) : bool :=
  Ascii.eqb c " " || in_range "009" "013" c.

Fixpoint all (p : ascii -> bool) (s : string) : bool :=
  match s with
  | "" => true
  | String c s' => p c && all p s'
  end.

Fixpoint lstrip (s : string) : string :=
  match s with
  | String c s' => if is_space c then lstrip s' else s
  | "" => ""
  end.

Fixpoint rstrip (s : string) : string :=
  match s with
  | "" => ""
  | String c s' =>
      match rstrip s' with
      | "" => if is_space c then "" else String c ""
      | t => String c t
      end
  end.

Definition strip (s : string) : string := rstrip (lstrip s).

(** The value of a run of decimal digits, most significant first. *)
Fixpoint decimal (acc : Z) (s : string) : Z :=
  match s with
  | "" => acc
  | String c s' => decimal (10 * acc + (ord c - ord "0")) s'
  end.

(** [int(s)].  The driver only converts text that one of its patterns has
    matched as a run of ASCII digits; signs and digit separators are not
    part of this model. *)
Definition int (s : string) : outcome Z :=
  let t := strip s in
  match t with
  | "" => Raise (ValueError (BadInt s))
  | _ => if all is_digit t then Return (decimal 0 t)
         else Raise (ValueError (BadInt s))
  end.

Definition hex_digit (c : ascii) : option Z :=
  if in_range "0" "9" c then Some (ord c - ord "0")
  else if in_range "a" "f" c then Some (ord c - ord "a" + 10)
  else if in_range "A" "F" c then Some (ord c - ord "A" + 10)
  else None.

Fixpoint hexadecimal (acc : Z) (s : string) : option Z :=
  match s with
  | "" => Some acc
  | String c s' =>
      match hex_digit c with
      | Some d => hexadecimal (16 * acc + d) s'
      | None => None
      end
  end.

(** [int(s, 16)]: an optional [0x] prefix, then hexadecimal digits. *)
Definition int16 (s : string) : outcome Z :=
  let t := strip s in
  let body :=
    match t with
    | String "0" (String "x" b) => b
    | String "0" (String "X" b) => b
    | _ => t
    end in
  match body with
  | "" => Raise (ValueError (BadInt s))
  | _ => match hexadecimal 0 body with
         | Some v => Return v
         | None => Raise (ValueError (BadInt s))
         end
  end.

(** A Python float as the driver produces them: a whole number read from
    three digits, or positive infinity. *)
Inductive pyfloat :=
| Finite (v : Z)
| PosInf.

(** [float(s)] on the texts the driver passes: the literal [inf], or what
    the reading pattern captured (digits, or nothing at all). *)
Definition float (s : string) : outcome pyfloat :=
  let t := strip s in
  if String.eqb t "inf" then Return PosInf
  else match t with
       | "" => Raise (ValueError (BadFloat s))
       | _ => if all is_digit t then Return (Finite (decimal 0 t))
              else Raise (ValueError (BadFloat s))
       end.

(** ['%d' % n] *)
Definition fmt_d (n : Z) : string := NilZero.string_of_int (Z.to_int n).

(** *** datetime.datetime *)

Record datetime := mkDatetime {
  dt_year : Z; dt_month : Z; dt_day : Z;
  dt_hour : Z; dt_minute : Z; dt_second : Z
}.

Definition is_leap (y : Z) : bool :=
  (y mod 4 =? 0) && (negb (y mod 100 =? 0) || (y mod 400 =? 0)).

Definition days_in_month (y m : Z) : Z :=
  if m =? 2 then (if is_leap y then 29 else 28)
  else if (m =? 4) || (m =? 6) || (m =? 9) || (m =? 11) then 30
  else 31.

Definition between (lo x hi : Z) : bool := (lo <=? x) && (x <=? hi).

(** The constructor checks every field and raises [ValueError] otherwise. *)
Definition datetime_ (y m d hh mm ss : Z) : outcome datetime :=
  if between 1 y 9999 && between 1 m 12 && between 1 d (days_in_month y m)
     && between 0 hh 23 && between 0 mm 59 && between 0 ss 59
  then Return (mkDatetime y m d hh mm ss)
  else Raise (ValueError BadDate).

End Py.

(* ================================================================= *)
(** ** Regular expressions, as [re.match] runs them *)

Module Re.

Inductive re :=
| Lit (s : string)                     (* literal text *)
| Cls (ranges : list (ascii * ascii))  (* [a-z], [0-9A-F], [01] *)
| Seq (r1 r2 : re)
| Alt (r1 r2 : re)                     (* r1|r2, r1 tried first *)
| Rep (r : re) (n : nat)               (* r{n} *)
| Grp (name : string) (r : re)         (* (?P<name>r) *)
| Bol                                  (* ^ *)
| Eol.                                 (* $ *)

(** The named groups captured so far, the latest first. *)
Definition groups := list (string * string).

(** Where the matcher stands: how many characters it has consumed and
    the text still ahead. *)
Definition cursor := (nat * string)%type.

Definition in_cls (ranges : list (ascii * ascii)) (c : ascii) : bool :=
  existsb (fun r => Py.in_range (fst r) (snd r) c) ranges.

(** [s] with the prefix [p] removed. *)
Fixpoint eat (p s : string) : option string :=
  match p, s with
  | "", _ => Some s
  | String a p', String b s' => if Ascii.eqb a b then eat p' s' else None
  | String _ _, "" => None
  end.

(** The first [n] characters of [s]. *)
Fixpoint take (n : nat) (s : string) : string :=
  match n, s with
  | S n', String c s' => String c (take n' s')
  | _, _ => ""
  end.

(** Every way [r] matches at the cursor, in the order the backtracking
    matcher tries them.  [$] holds at the end of the text and also just
    before a line feed that ends it. *)
Fixpoint run (r : re) (cur : cursor) (g : groups) : list (groups * cursor) :=
  match r with
  | Lit p =>
      match eat p (snd cur) with
      | Some s' => [(g, ((fst cur + String.length p)%nat, s'))]
      | None => []
      end
  | Cls ranges =>
      match snd cur with
      | String c s' => if in_cls ranges c then [(g, (S (fst cur), s'))] else []
      | "" => []
      end
  | Seq r1 r2 =>
      flat_map (fun x => run r2 (snd x) (fst x)) (run r1 cur g)
  | Alt r1 r2 => run r1 cur g ++ run r2 cur g
  | Rep r1 n =>
      (fix rep (n : nat) (cur : cursor) (g : groups) :=
         match n with
         | O => [(g, cur)]
         | S n' => flat_map (fun x => rep n' (snd x) (fst x)) (run r1 cur g)
         end) n cur g
  | Grp name r1 =>
      map (fun x =>
             ((name, take (fst (snd x) - fst cur) (snd cur)) :: fst x, snd x))
          (run r1 cur g)
  | Bol => if Nat.eqb (fst cur) 0 then [(g, cur)] else []
  | Eol =>
      match snd cur with
      | "" => [(g, cur)]
      | String c "" => if Ascii.eqb c Py.LF then [(g, cur)] else []
      | _ => []
      end
  end.

(** [pattern.match(s)]: the first way the pattern matches from the start
    of [s], or [None]. *)
Definition match_ (r : re) (s : string) : option groups :=
  match run r (O, s) [] with
  | x :: _ => Some (fst x)
  | [] => None
  end.

(** [m.group(name)] *)
Fixpoint group (m : groups) (name : string) : outcome string :=
  match m with
  | [] => Raise IndexError
  | (k, v) :: m' => if String.eqb k name then Return v else group m' name
  end.

(** Building blocks for writing the patterns down. *)
Fixpoint seq_of (l : list re) : re :=
  match l with
  | [] => Lit ""
  | [r] => r
  | r :: l' => Seq r (seq_of l')
  end.

Definition digit : re := Cls [("0"%char, "9"%char)].
Definition upper : re := Cls [("A"%char, "Z"%char)].
Definition lower : re := Cls [("a"%char, "z"%char)].

End Re.

(* ================================================================= *)
(** ** The driver *)

Import Py Re.

(** [^(?P<month>[A-Z][a-z]{2})  (?P<day>[0-9]{2}) (?P<year>[0-9]{4}) (?P<time>[0-9]{2}:[0-9]{2}:[0-9]{2})$] *)
Definition _CLOCK_RE : re :=
  seq_of [ Bol;
           Grp "month" (Seq upper (Rep lower 2)); Lit "  ";
           Grp "day" (Rep digit 2); Lit " ";
           Grp "year" (Rep digit 4); Lit " ";
           Grp "time" (seq_of [Rep digit 2; Lit ":"; Rep digit 2; Lit ":";
                               Rep digit 2]);
           Eol ].

(** [^(?P<empty>Log Empty END)$] *)
Definition _EMPTY_RE : re :=
  seq_of [ Bol; Grp "empty" (Lit "Log Empty END"); Eol ].

(** [^(?P<nrresults>[0-9]{3})$] *)
Definition _COUNT_RE : re :=
  seq_of [ Bol; Grp "nrresults" (Rep digit 3); Eol ].

(** [^(?P<reading>|[0-9]{3})  (?P<month>[A-Z][a-z]{2})  (?P<day>[0-9]{2}) (?P<year>[0-9]{4}) (?P<time>[0-9]{2}:[0-9]{2}) (?P<type>[0-9]{2}) (?P<sentinel>0x0[01])$] *)
Definition _READING_RE : re :=
  seq_of [ Bol;
           Grp "reading" (Alt (Lit "") (Rep digit 3)); Lit "  ";
           Grp "month" (Seq upper (Rep lower 2)); Lit "  ";
           Grp "day" (Rep digit 2); Lit " ";
           Grp "year" (Rep digit 4); Lit " ";
           Grp "time" (seq_of [Rep digit 2; Lit ":"; Rep digit 2]); Lit " ";
           Grp "type" (Rep digit 2); Lit " ";
           Grp "sentinel" (Seq (Lit "0x0") (Cls [("0"%char, "1"%char)]));
           Eol ].

(** [^(?P<checksum>0x[0-9A-F]{4})  END$] *)
Definition _CHECKSUM_RE : re :=
  seq_of [ Bol;
           Grp "checksum"
             (Seq (Lit "0x")
                  (Rep (Cls [("0"%char, "9"%char); ("A"%char, "F"%char)]) 4));
           Lit "  END";
           Eol ].

Definition _MONTH_MATCHES : list (string * Z) :=
  [ ("Jan", 1); ("Feb", 2); ("Mar", 3); ("Apr", 4); ("May", 5); ("Jun", 6);
    ("Jul", 7); ("Aug", 8); ("Sep", 9); ("Oct", 10); ("Nov", 11);
    ("Dec", 12) ].

(** [d[key]] on a dictionary with string keys. *)
Fixpoint dict_getitem (d : list (string * Z)) (key : string) : outcome Z :=
  match d with
  | [] => Raise (KeyError key)
  | (k, v) :: d' => if String.eqb k key then Return v else dict_getitem d' key
  end.

Definition _INFO_SIZE : Z := 5.

Definition NL : string := String LF "".

(** [a, b, c = map(int, l)] and [a, b = map(int, l)]: the conversions
    run while the targets are filled, a wrong length is a [ValueError]. *)
Fixpoint map_int (l : list string) : outcome (list Z) :=
  match l with
  | [] => Return []
  | s :: l' =>
      match int s with
      | Raise e => Raise e
      | Return v =>
          match map_int l' with
          | Raise e => Raise e
          | Return vs => Return (v :: vs)
          end
      end
  end.

Definition _parse_clock (datestr : string) : M datetime :=
  match match_ _CLOCK_RE datestr with
  | None => raise (InvalidResponse datestr)
  | Some m =>
      day_s <- lift (group m "day") ;;
      day <- lift (int day_s) ;;
      month_s <- lift (group m "month") ;;
      month <- lift (dict_getitem _MONTH_MATCHES month_s) ;;
      year_s <- lift (group m "year") ;;
      year <- lift (int year_s) ;;
      time <- lift (group m "time") ;;
      hms <- lift (map_int (split ":" time)) ;;
      match hms with
      | [hour; minute; second] =>
          lift (datetime_ year month day hour minute second)
      | _ => raise (ValueError (BadUnpack (length hms)))
      end
  end.

Definition _parse_nrresults (countstr : string) : M Z :=
  let match_empty := match_ _EMPTY_RE countstr in
  let match_count := match_ _COUNT_RE countstr in
  match match_empty, match_count with
  | Some _, _ => ret 0
  | None, Some _ => lift (int countstr)
  | None, None => raise (InvalidResponse countstr)
  end.

(** [common.Unit] *)
Inductive Unit := MG_DL | MMOL_L.

Record Info := mkInfo {
  device_version_ : string;
  software_revision_ : string;
  device_serialno_ : string;
  device_glucose_unit_ : Unit;
  device_current_date_time_ : datetime;
  device_nrresults_ : Z
}.

Definition _parse_info (data : list string) : M Info :=
  (if len data <? _INFO_SIZE then
     logging_debug
       ("_parse_info:  len(data)=" ++ fmt_d (len data) ++ " < "
          ++ fmt_d _INFO_SIZE ++ " lines:  " ++ "%r") data ;;;
     raise (InvalidResponse (join NL data))
   else ret tt) ;;;
  data0 <- lift (getitem data 0) ;;
  (if negb (String.eqb data0 "") then
     logging_debug ("_parse_info:  first line not blank:  " ++ "%r") data ;;;
     raise (InvalidResponse (join NL data))
   else ret tt) ;;;
  data1 <- lift (getitem data 1) ;;
  data2 <- lift (getitem data 2) ;;
  data3 <- lift (getitem data 3) ;;
  clock <- _parse_clock data3 ;;
  data4 <- lift (getitem data 4) ;;
  nrresults <- _parse_nrresults data4 ;;
  ret (mkInfo data1 data2 "N/A" MG_DL clock nrresults).

(** The dictionary [_parse_resline] returns. *)
Record ResLine := mkResLine {
  value : pyfloat;
  day : Z;
  month : Z;
  year : Z;
  hour : Z;
  minute : Z;
  timestamp : datetime;
  READING : string;
  TYPE : string;
  SENTINEL : string
}.

Definition _parse_resline (line : string) (j : Z) : M ResLine :=
  match match_ _READING_RE line with
  | None =>
      raise (InvalidResponse ("error line " ++ fmt_d j ++ " = " ++ line))
  | Some m =>
      READING <- lift (group m "reading") ;;
      MONTH <- lift (group m "month") ;;
      DAY <- lift (group m "day") ;;
      YEAR <- lift (group m "year") ;;
      TIME <- lift (group m "time") ;;
      TYPE <- lift (group m "type") ;;
      SENTINEL <- lift (group m "sentinel") ;;
      (if negb (String.eqb TYPE "00") then
         logging_warning ("TYPE == " ++ TYPE ++ "  NORMALLY type == 00")
       else ret tt) ;;;
      value <- (if String.eqb READING "HI " then lift (float "inf")
                else lift (float READING)) ;;
      month <- lift (dict_getitem _MONTH_MATCHES MONTH) ;;
      day <- lift (int DAY) ;;
      year <- lift (int YEAR) ;;
      hm <- lift (map_int (split ":" TIME)) ;;
      match hm with
      | [hour; minute] =>
          timestamp <- lift (datetime_ year month day hour minute 0) ;;
          ret (mkResLine value day month year hour minute timestamp
                         READING TYPE SENTINEL)
      | _ => raise (ValueError (BadUnpack (length hm)))
      end
  end.

Definition _parse_checksum (line : string) : M Z :=
  match match_ _CHECKSUM_RE line with
  | None => raise (InvalidResponse (join NL (chars line)))
  | Some m =>
      checksum_str <- lift (group m "checksum") ;;
      lift (int16 checksum_str)
  end.

(** The dictionary [_parse_result] returns. *)
Record Result := mkResult {
  info : Info;
  reslog : list ResLine;
  checksum : Z
}.

(** The local [checksum] is bound only on the [n > 0] path; reading it
    while unbound raises [UnboundLocalError]. *)
Definition _parse_result (data : list string) : M Result :=
  info <- _parse_info data ;;
  let n := device_nrresults_ info in
  len_data1 <-
    (if n =? 0 then ret _INFO_SIZE
     else
       data5 <- lift (getitem data _INFO_SIZE) ;;
       (if negb (String.eqb data5 "") then
          logging_debug ("_parse_result:  last line not blank:  %r") data ;;;
          raise (InvalidResponse (join NL data))
        else ret tt) ;;;
       ret (_INFO_SIZE + n + 2)) ;;
  (if negb (len data =? len_data1) then
     logging_debug
       ("_parse_result:  len(data)= " ++ fmt_d (len data)
          ++ " correct len_data= " ++ fmt_d len_data1 ++ "  " ++ "%r") data ;;;
     raise (InvalidResponse (join NL data))
   else ret tt) ;;;
  let j1 := _INFO_SIZE + 1 in
  let j2 := _INFO_SIZE + 1 + n in
  reslog <- mapM (fun j => line <- lift (getitem data j) ;;
                           _parse_resline line j) (range j1 j2) ;;
  checksum <-
    (if n >? 0 then
       line <- lift (getitem data j2) ;;
       c <- _parse_checksum line ;;
       ret (Some c)
     else ret None) ;;
  match checksum with
  | Some c => ret (mkResult info reslog c)
  | None => raise (UnboundLocalError "checksum")
  end.

(** The fields [_fetch_device_information] sets on the device object. *)
Record Device := mkDevice {
  info_ : Info;
  device_results_ : list ResLine;
  device_checksum_ : Z
}.

(** The checksum the driver computes over the decoded lines [data]. *)
Definition checksum_gotten (data : list string) (n : Z) : Z :=
  let wnl := (ord CR + ord LF) * (_INFO_SIZE + n) in
  let lnl := ord LF in
  (sum_ord (String.concat "" (removelast data)) + wnl + lnl) mod (2 ^ 16).

(** [_fetch_device_information], from the decoded response [data] that
    [_send_command('mem')] hands back: what is parsed, stored and
    compared from there on.  The log is the one of this part; the two
    debug records that [_send_command] writes before it stand outside. *)
Definition _fetch_device_information (data : list string) : M Device :=
  res <- _parse_result data ;;
  let self := mkDevice (info res) (reslog res) (checksum res) in
  let n := device_nrresults_ (info_ self) in
  (if n >? 0 then
     let ce := device_checksum_ self in
     let cg := checksum_gotten data n in
     if negb (ce =? cg) then raise (InvalidChecksum ce cg) else ret tt
   else ret tt) ;;;
  ret self.

(** The line-decoding step of [_send_command], [rstrip('\r\n')]: the
    carriage returns and line feeds that end a line are removed. *)
Fixpoint rstrip_crlf (s : string) : string :=
  match s with
  | "" => ""
  | String c s' =>
      match rstrip_crlf s' with
      | "" => if Ascii.eqb c CR || Ascii.eqb c LF then "" else String c ""
      | t => String c t
      end
  end.

Definition decoded_response (response : list string) : list string :=
  map rstrip_crlf response.

(** [_send_command], from the lines [response] that the serial port
    hands back: every line is decoded as ASCII, which fails on a byte
    above 127 ([None] stands for the [UnicodeDecodeError]), and loses the
    carriage returns and line feeds that end it.  This is the value the
    method returns; the debug records it writes for the command and for
    the lines received are not part of it. *)
Definition is_ascii (line : string) : bool :=
  all (fun c => ord c <? 128) line.

Definition _send_command (response : list string) : option (list string) :=
  if forallb is_ascii response then Some (decoded_response response)
  else None.

(** The accessors read the fields that [_fetch_device_information] copied
    from the info record. *)
Definition get_version (self : Device) : string :=
  device_version_ (info_ self).
Definition get_software_revision (self : Device) : string :=
  software_revision_ (info_ self).
Definition get_serial_number (self : Device) : string :=
  device_serialno_ (info_ self).
Definition get_glucose_unit (self : Device) : Unit :=
  device_glucose_unit_ (info_ self).
Definition get_datetime (self : Device) : datetime :=
  device_current_date_time_ (info_ self).

(** [common.MeterInfo], with the arguments [get_meter_info] passes. *)
Record MeterInfo := mkMeterInfo {
  model : string;
  serial_number : string;
  version_info : string * string;
  native_unit : Unit
}.

Definition get_meter_info (self : Device) : MeterInfo :=
  mkMeterInfo "Freestyle Lite glucometer"
              (get_serial_number self)
              (("Software version: " ++ get_software_revision self)%string,
               ("Hardware version: " ++ get_version self)%string)
              (get_glucose_unit self).

(** [common.GlucoseReading(timestamp, value)] *)
Record GlucoseReading := mkGlucoseReading {
  gr_timestamp : datetime;
  gr_value : pyfloat
}.

(** [get_readings]: one reading per stored line, in the order stored. *)
Definition get_readings (self : Device) : list GlucoseReading :=
  map (fun line => mkGlucoseReading (timestamp line) (value line))
      (device_results_ self).

(** [connect], from the lines the serial port hands back for [mem]:
    the decoding of [_send_command], then [_fetch_device_information] on
    the decoded lines.  As there, the debug records of [_send_command]
    stand outside: what is faithful is the outcome. *)
Definition connect (response : list string) : option (M Device) :=
  match _send_command response with
  | Some data => Some (_fetch_device_information data)
  | None => None
  end.

(* ================================================================= *)
(** ** Lines, field by field, and sample transcripts *)

Local Open Scope string_scope.
Unset Implicit Arguments.

(** *** Shapes of text *)

(** Exactly [n] decimal digits. *)
Definition digits (n : nat) (s : string) : bool :=
  Nat.eqb (String.length s) n && all is_digit s.

(** A capital letter and two small letters. *)
Definition month_shape (s : string) : bool :=
  match s with
  | String a (String b (String c "")) =>
      in_range "A" "Z" a && in_range "a" "z" b && in_range "a" "z" c
  | _ => false
  end.

(** [[0-9A-F]] *)
Definition hex_upper (c : ascii) : bool :=
  in_range "0" "9" c || in_range "A" "F" c.

Definition hexdigits4 (s : string) : bool :=
  Nat.eqb (String.length s) 4
  && all (fun c => in_range "0" "9" c || in_range "A" "F" c) s.

(** The fields of a timestamp that [datetime.datetime] accepts. *)
Definition valid_datetime (t : datetime) : bool :=
  between 1 (dt_year t) 9999 && between 1 (dt_month t) 12
  && between 1 (dt_day t) (days_in_month (dt_year t) (dt_month t))
  && between 0 (dt_hour t) 23 && between 0 (dt_minute t) 59
  && between 0 (dt_second t) 59.

(** Nothing follows the line, or the one line feed [$] lets through. *)
Definition at_end (e : string) : Prop := e = "" \/ e = NL.

(** [s] without the line feed that ends it, if one does. *)
Fixpoint chomp (s : string) : string :=
  match s with
  | "" => ""
  | String c "" => if Ascii.eqb c LF then "" else s
  | String c s' => String c (chomp s')
  end.

(** *** The matcher on text of a known shape *)

(** [r] matches the text [w] at any position, whatever follows, in one
    way only, and leaves the groups [f g]. *)
Definition consumes (r : re) (w : string) (f : groups -> groups) : Prop :=
  forall p s g,
    run r (p, w ++ s) g = [(f g, ((p + String.length w)%nat, s))].

(** [Cls ranges] repeated [n] times, as a function of the text. *)
Fixpoint eat_cls (ranges : list (ascii * ascii)) (n : nat) (s : string)
  : option string :=
  match n with
  | O => Some s
  | S n' =>
      match s with
      | String c s' => if in_cls ranges c then eat_cls ranges n' s' else None
      | "" => None
      end
  end.

(** What it is for [r] to match the text [w] at position [p], with
    [rest] following, taking the groups [g] to [g']: the reading of the
    pattern language that [run] implements. *)
Inductive matches : re -> nat -> string -> string -> groups -> groups -> Prop :=
| m_Lit l p rest g :
    matches (Lit l) p l rest g g
| m_Cls rs c p rest g :
    in_cls rs c = true -> matches (Cls rs) p (String c "") rest g g
| m_Seq r1 r2 p w1 w2 rest g g1 g2 :
    matches r1 p w1 (w2 ++ rest) g g1 ->
    matches r2 (p + String.length w1)%nat w2 rest g1 g2 ->
    matches (Seq r1 r2) p (w1 ++ w2) rest g g2
| m_AltL r1 r2 p w rest g g' :
    matches r1 p w rest g g' -> matches (Alt r1 r2) p w rest g g'
| m_AltR r1 r2 p w rest g g' :
    matches r2 p w rest g g' -> matches (Alt r1 r2) p w rest g g'
| m_Rep0 r p rest g :
    matches (Rep r 0) p "" rest g g
| m_RepS r n p w1 w2 rest g g1 g2 :
    matches r p w1 (w2 ++ rest) g g1 ->
    matches (Rep r n) (p + String.length w1)%nat w2 rest g1 g2 ->
    matches (Rep r (S n)) p (w1 ++ w2) rest g g2
| m_Grp name r p w rest g g1 :
    matches r p w rest g g1 ->
    matches (Grp name r) p w rest g ((name, w) :: g1)
| m_Bol rest g :
    matches Bol O "" rest g g
| m_Eol p rest g :
    at_end rest -> matches Eol p "" rest g g.

(** *** Reading lines *)

(** The fields of a reading line as the pattern cuts them. *)
Record reading_fields := mkReading {
  r_reading : string;
  r_month : string;
  r_day : string;
  r_year : string;
  r_hh : string;
  r_mm : string;
  r_type : string;
  r_sentinel : ascii
}.

(** The text after the value field and its two blanks, followed by [e]. *)
Definition reading_tail (f : reading_fields) (e : string) : string :=
  r_month f ++ "  " ++ r_day f ++ " " ++ r_year f ++ " "
    ++ (r_hh f ++ ":" ++ r_mm f) ++ " " ++ r_type f ++ " "
    ++ ("0x0" ++ String (r_sentinel f) "") ++ e.

(** A reading line laid out from its fields, followed by [e]. *)
Definition reading_text (f : reading_fields) (e : string) : string :=
  r_reading f ++ "  " ++ reading_tail f e.

Definition reading_line (f : reading_fields) : string := reading_text f "".

(** The fields after the value are as the pattern wants them. *)
Definition wf_reading_tail (f : reading_fields) : bool :=
  month_shape (r_month f) && digits 2 (r_day f) && digits 4 (r_year f)
  && digits 2 (r_hh f) && digits 2 (r_mm f) && digits 2 (r_type f)
  && in_range "0" "1" (r_sentinel f).

(** The value field as the pattern takes it: nothing, or three digits. *)
Definition reading_field_ok (s : string) : bool :=
  String.eqb s "" || digits 3 s.

(** What the pattern captures from such a line. *)
Definition reading_groups (f : reading_fields) : groups :=
  [ ("sentinel", "0x0" ++ String (r_sentinel f) "");
    ("type", r_type f);
    ("time", r_hh f ++ ":" ++ r_mm f);
    ("year", r_year f);
    ("day", r_day f);
    ("month", r_month f);
    ("reading", r_reading f) ].

(** The warning logged for the type code [ty]. *)
Definition type_warning_record (ty : string) : LogRecord :=
  mkLog WARNING ("TYPE == " ++ ty ++ "  NORMALLY type == 00") [].

(** What [_parse_resline] logs for a type code. *)
Definition type_warning (ty : string) : list LogRecord :=
  if String.eqb ty "00" then [] else [type_warning_record ty].

(** The record [_parse_resline] builds from the captured fields, or the
    exception that stops it. *)
Definition reading_record (f : reading_fields) : outcome ResLine :=
  match float (r_reading f) with
  | Raise e => Raise e
  | Return v =>
      match dict_getitem _MONTH_MATCHES (r_month f) with
      | Raise e => Raise e
      | Return m =>
          let d := decimal 0 (r_day f) in
          let y := decimal 0 (r_year f) in
          let hh := decimal 0 (r_hh f) in
          let mm := decimal 0 (r_mm f) in
          match datetime_ y m d hh mm 0 with
          | Raise e => Raise e
          | Return ts =>
              Return (mkResLine v d m y hh mm ts (r_reading f) (r_type f)
                                ("0x0" ++ String (r_sentinel f) ""))
          end
      end
  end.

(** The fields [f] with another type code. *)
Definition with_type (f : reading_fields) (ty : string) : reading_fields :=
  mkReading (r_reading f) (r_month f) (r_day f) (r_year f) (r_hh f) (r_mm f)
            ty (r_sentinel f).

(** The fields [f] with another value field. *)
Definition with_reading (f : reading_fields) (r : string) : reading_fields :=
  mkReading r (r_month f) (r_day f) (r_year f) (r_hh f) (r_mm f)
            (r_type f) (r_sentinel f).

(** The record [r] with another type code. *)
Definition retype (ty : string) (r : ResLine) : ResLine :=
  mkResLine (value r) (day r) (month r) (year r) (hour r) (minute r)
            (timestamp r) (READING r) ty (SENTINEL r).

(** Everything a returned reading record is known to satisfy. *)
Definition reading_ok (r : ResLine) : Prop :=
  value r = Finite (decimal 0 (READING r))
  /\ 0 <= decimal 0 (READING r) <= 999
  /\ timestamp r = mkDatetime (year r) (month r) (day r) (hour r) (minute r) 0
  /\ valid_datetime (timestamp r) = true.

(** A carriage return or a line feed. *)
Definition is_crlf (c : ascii) : bool := Ascii.eqb c CR || Ascii.eqb c LF.

(** The text of a checksum line declaring the digits [h], followed by
    [e]. *)
Definition checksum_text (h e : string) : string :=
  "0x" ++ h ++ "  END" ++ e.

(** Reading the lines [j1 .. j2-1] of the response, as the assembler
    does. *)
Definition read_lines (data : list string) (j1 j2 : Z) : M (list ResLine) :=
  mapM (fun j => line <- lift (getitem data j) ;; _parse_resline line j)
       (range j1 j2).

(** *** Clock lines *)

(** The fields of a clock line as the pattern cuts them. *)
Record clock_fields := mkClock {
  c_month : string;
  c_day : string;
  c_year : string;
  c_hh : string;
  c_mm : string;
  c_ss : string
}.

(** A clock line laid out from its fields, followed by [e]. *)
Definition clock_text (c : clock_fields) (e : string) : string :=
  c_month c ++ "  " ++ c_day c ++ " " ++ c_year c ++ " "
    ++ (c_hh c ++ ":" ++ c_mm c ++ ":" ++ c_ss c) ++ e.

Definition clock_line (c : clock_fields) : string := clock_text c "".

Definition wf_clock (c : clock_fields) : bool :=
  month_shape (c_month c) && digits 2 (c_day c) && digits 4 (c_year c)
  && digits 2 (c_hh c) && digits 2 (c_mm c) && digits 2 (c_ss c).

(** What the pattern captures from such a line. *)
Definition clock_groups (c : clock_fields) : groups :=
  [ ("time", c_hh c ++ ":" ++ c_mm c ++ ":" ++ c_ss c);
    ("year", c_year c);
    ("day", c_day c);
    ("month", c_month c) ].

(** The timestamp [_parse_clock] builds from the captured fields, or the
    exception that stops it. *)
Definition clock_value (c : clock_fields) : outcome datetime :=
  match dict_getitem _MONTH_MATCHES (c_month c) with
  | Raise e => Raise e
  | Return m =>
      datetime_ (decimal 0 (c_year c)) m (decimal 0 (c_day c))
                (decimal 0 (c_hh c)) (decimal 0 (c_mm c)) (decimal 0 (c_ss c))
  end.

(** *** Whole responses *)

(** A response with readings laid out from its parts: the empty first
    line, the two version lines, the clock line, the count line, the
    empty line, one line for each reading, and the checksum line
    declaring the digits [h]. *)
Definition transcript (ver rev : string) (c : clock_fields) (count : string)
    (fs : list reading_fields) (h : string) : list string :=
  ([""; ver; rev; clock_line c; count; ""]
     ++ map reading_line fs ++ [checksum_text h ""])%list.

(** The last character of [s] is a carriage return or a line feed. *)
Fixpoint ends_crlf (s : string) : bool :=
  match s with
  | "" => false
  | String c "" => is_crlf c
  | String _ s' => ends_crlf s'
  end.

(** A line as it is on the wire: its text [fst], which is ASCII and does
    not end in a carriage return or a line feed, and then the carriage
    returns and line feeds [snd] that end it. *)
Definition wire_line (p : string * string) : bool :=
  is_ascii (fst p) && negb (ends_crlf (fst p)) && all is_crlf (snd p).

Definition on_wire (p : string * string) : string := fst p ++ snd p.

(** *** Sample lines and transcripts *)

(** The response of a meter whose log is empty. *)
Definition empty_log : list string :=
  [""; "0.22"; "0.22"; "Jan  01 2017 12:00:00"; "Log Empty END"].

(** A response with two readings and its checksum, and what the
    assembler returns for it. *)
Definition two_readings : list string :=
  [""; "0.22"; "0.22"; "Jan  01 2017 12:00:00"; "002"; "";
   "123  Feb  03 2017 08:15 00 0x00";
   "087  Jan  28 2017 19:40 00 0x01";
   "0x13B9  END"].

(** The same response as the meter sends it, every line ended by a
    carriage return and a line feed. *)
Definition two_readings_wire : list (string * string) :=
  map (fun d => (d, String CR NL)) two_readings.

Definition two_readings_result : Result :=
  mkResult
    (mkInfo "0.22" "0.22" "N/A" MG_DL (mkDatetime 2017 1 1 12 0 0) 2)
    [ mkResLine (Finite 123) 3 2 2017 8 15 (mkDatetime 2017 2 3 8 15 0)
                "123" "00" "0x00";
      mkResLine (Finite 87) 28 1 2017 19 40 (mkDatetime 2017 1 28 19 40 0)
                "087" "00" "0x01" ]
    5049.

(** The first reading of [two_readings] with the type code [07], and
    the lines before and after it. *)
Definition feb_reading_07 : reading_fields :=
  mkReading "123" "Feb" "03" "2017" "08" "15" "07" "0".

Definition two_readings_before : list string :=
  [""; "0.22"; "0.22"; "Jan  01 2017 12:00:00"; "002"; ""].

Definition two_readings_after : list string :=
  ["087  Jan  28 2017 19:40 00 0x01"; "0x13B9  END"].

(** A response cut off after the info block of a non-empty log. *)
Definition truncated_after_info : list string :=
  [""; "0.22"; "0.22"; "Jan  01 2017 12:00:00"; "001"].

(** Fields of a reading line: 3 June 2017, 08:15, value 123. *)
Definition june_reading : reading_fields :=
  mkReading "123" "Jun" "03" "2017" "08" "15" "00" "0".

(** Fields with a month that is no month. *)
Definition abc_reading : reading_fields :=
  mkReading "123" "Abc" "03" "2017" "08" "15" "00" "0".

Definition abc_clock : clock_fields :=
  mkClock "Abc" "01" "2017" "12" "00" "00".


(* ================================================================= *)
(** ** Facts about text and the built-ins *)

(** A property of single characters is settled by trying all of them. *)
Ltac every_char c :=
  destruct c as [[] [] [] [] [] [] [] []]; vm_compute; intros;
  try reflexivity; try discriminate.

Section Text.

Lemma append_nil_r (s : string) : s ++ "" = s.
Proof. induction s as [|c s IH]; simpl; [reflexivity | now rewrite IH]. Qed.

Lemma append_assoc (a b c : string) : (a ++ b) ++ c = a ++ (b ++ c).
Proof. induction a as [|x a IH]; simpl; [reflexivity | now rewrite IH]. Qed.

Lemma length_append (a b : string) :
  String.length (a ++ b) = (String.length a + String.length b)%nat.
Proof. induction a as [|x a IH]; simpl; [reflexivity | now rewrite IH]. Qed.

Lemma digit_not_space c : is_digit c = true -> is_space c = false.
Proof. every_char c. Qed.

Lemma digit_not_blank c : is_digit c = true -> Ascii.eqb " " c = false.
Proof. every_char c. Qed.

Lemma digit_not_colon c : is_digit c = true -> Ascii.eqb c ":" = false.
Proof. every_char c. Qed.

Lemma digit_not_i c : is_digit c = true -> Ascii.eqb c "i" = false.
Proof. every_char c. Qed.

Lemma digit_not_LF c : is_digit c = true -> Ascii.eqb c LF = false.
Proof. every_char c. Qed.

Lemma rstrip_digits w : all is_digit w = true -> rstrip w = w.
Proof.
  induction w as [|c w IH]; simpl; [reflexivity |].
  intros H. apply andb_prop in H as [Hc Hw].
  rewrite (IH Hw), (digit_not_space _ Hc). now destruct w.
Qed.

Lemma rstrip_digits_LF w : all is_digit w = true -> rstrip (w ++ NL) = w.
Proof.
  induction w as [|c w IH]; simpl; [reflexivity |].
  intros H. apply andb_prop in H as [Hc Hw].
  rewrite (IH Hw), (digit_not_space _ Hc). now destruct w.
Qed.

Lemma lstrip_digits w s :
  w <> "" -> all is_digit w = true -> lstrip (w ++ s) = w ++ s.
Proof.
  destruct w as [|c w]; [congruence |]. simpl. intros _ H.
  apply andb_prop in H as [Hc _]. now rewrite (digit_not_space _ Hc).
Qed.

Lemma strip_digits w : w <> "" -> all is_digit w = true -> strip w = w.
Proof.
  intros Hne H. unfold strip.
  rewrite <- (append_nil_r w) at 1.
  rewrite (lstrip_digits w "" Hne H), append_nil_r. now apply rstrip_digits.
Qed.

Lemma strip_digits_LF w :
  w <> "" -> all is_digit w = true -> strip (w ++ NL) = w.
Proof.
  intros Hne H. unfold strip.
  rewrite (lstrip_digits w NL Hne H). now apply rstrip_digits_LF.
Qed.

Lemma int_digits w :
  w <> "" -> all is_digit w = true -> int w = Return (decimal 0 w).
Proof.
  intros Hne H. unfold int. rewrite (strip_digits w Hne H), H.
  destruct w; [congruence | reflexivity].
Qed.

Lemma int_digits_LF w :
  w <> "" -> all is_digit w = true -> int (w ++ NL) = Return (decimal 0 w).
Proof.
  intros Hne H. unfold int. rewrite (strip_digits_LF w Hne H), H.
  destruct w; [congruence | reflexivity].
Qed.

Lemma float_digits w :
  w <> "" -> all is_digit w = true -> float w = Return (Finite (decimal 0 w)).
Proof.
  intros Hne H. unfold float. rewrite (strip_digits w Hne H), H.
  destruct w as [|c w]; [congruence |].
  simpl in H. apply andb_prop in H as [Hc _].
  simpl. now rewrite (digit_not_i _ Hc).
Qed.

Lemma split_acc_digits a cur rest :
  all is_digit a = true ->
  split_acc ":" cur (a ++ rest) = split_acc ":" (cur ++ a) rest.
Proof.
  revert cur. induction a as [|c a IH]; simpl; intros cur H.
  - now rewrite append_nil_r.
  - apply andb_prop in H as [Hc Ha].
    rewrite (digit_not_colon _ Hc), (IH _ Ha), append_assoc. reflexivity.
Qed.

Lemma split_hm hh mm :
  all is_digit hh = true -> all is_digit mm = true ->
  split ":" (hh ++ ":" ++ mm) = [hh; mm].
Proof.
  intros Hh Hm. unfold split.
  rewrite (split_acc_digits hh "" (":" ++ mm) Hh). simpl.
  rewrite <- (append_nil_r mm) at 1.
  rewrite (split_acc_digits mm "" "" Hm). reflexivity.
Qed.

Lemma split_hms hh mm ss :
  all is_digit hh = true -> all is_digit mm = true ->
  all is_digit ss = true ->
  split ":" (hh ++ ":" ++ mm ++ ":" ++ ss) = [hh; mm; ss].
Proof.
  intros Hh Hm Hs. unfold split.
  rewrite (split_acc_digits hh "" (":" ++ mm ++ ":" ++ ss) Hh). simpl.
  rewrite (split_acc_digits mm "" (String ":" ss) Hm). simpl.
  rewrite <- (append_nil_r ss) at 1.
  rewrite (split_acc_digits ss "" "" Hs). reflexivity.
Qed.

End Text.

(* ================================================================= *)
(** ** Facts about the matcher *)

Section Matching.

Lemma eat_append p s : eat p (p ++ s) = Some s.
Proof.
  induction p as [|c p IH]; simpl; [reflexivity |].
  now rewrite Ascii.eqb_refl.
Qed.

Lemma eat_sound p s s' : eat p s = Some s' -> s = p ++ s'.
Proof.
  revert s. induction p as [|c p IH]; simpl; intros s H.
  - congruence.
  - destruct s as [|b s]; [discriminate |].
    destruct (Ascii.eqb_spec c b) as [->|]; [| discriminate].
    now rewrite (IH _ H).
Qed.

Lemma take_append w s : take (String.length w) (w ++ s) = w.
Proof. induction w as [|c w IH]; simpl; [now destruct s | now rewrite IH]. Qed.

Lemma run_Seq r1 r2 cur g :
  run (Seq r1 r2) cur g = flat_map (fun x => run r2 (snd x) (fst x)) (run r1 cur g).
Proof. reflexivity. Qed.

Lemma run_Rep_S r n cur g :
  run (Rep r (S n)) cur g
  = flat_map (fun x => run (Rep r n) (snd x) (fst x)) (run r cur g).
Proof. reflexivity. Qed.

Lemma consumes_Lit l : consumes (Lit l) l (fun g => g).
Proof. intros p s g. simpl. now rewrite eat_append. Qed.

Lemma consumes_Cls rs c :
  in_cls rs c = true -> consumes (Cls rs) (String c "") (fun g => g).
Proof.
  intros H p s g. simpl. rewrite H. now rewrite Nat.add_1_r.
Qed.

Lemma consumes_Seq r1 r2 w1 w2 f1 f2 :
  consumes r1 w1 f1 -> consumes r2 w2 f2 ->
  consumes (Seq r1 r2) (w1 ++ w2) (fun g => f2 (f1 g)).
Proof.
  intros H1 H2 p s g.
  rewrite run_Seq, append_assoc, H1. simpl.
  rewrite H2, List.app_nil_r, length_append, Nat.add_assoc. reflexivity.
Qed.

Lemma consumes_Rep rs n w :
  String.length w = n -> all (in_cls rs) w = true ->
  consumes (Rep (Cls rs) n) w (fun g => g).
Proof.
  revert n. induction w as [|c w IH]; intros n Hn Hw p s g.
  - subst n. simpl. now rewrite Nat.add_0_r.
  - simpl in Hn. subst n. simpl in Hw. apply andb_prop in Hw as [Hc Hw].
    rewrite run_Rep_S.
    change (String c w ++ s) with (String c "" ++ (w ++ s)).
    rewrite (consumes_Cls rs c Hc). cbn [flat_map fst snd].
    rewrite (IH _ eq_refl Hw), List.app_nil_r.
    simpl String.length.
    now replace (p + 1 + String.length w)%nat
      with (p + S (String.length w))%nat by lia.
Qed.

Lemma consumes_Grp name r w f :
  consumes r w f -> consumes (Grp name r) w (fun g => (name, w) :: f g).
Proof.
  intros H p s g. simpl. rewrite H. simpl.
  replace (p + String.length w - p)%nat with (String.length w) by lia.
  now rewrite take_append.
Qed.

(** Stepping over the first part of a sequence. *)
Lemma run_Seq_consumes r1 r2 w f p s g :
  consumes r1 w f ->
  run (Seq r1 r2) (p, w ++ s) g = run r2 ((p + String.length w)%nat, s) (f g).
Proof.
  intros H. rewrite run_Seq, H. simpl. now rewrite List.app_nil_r.
Qed.

Lemma run_Seq_Bol r s g : run (Seq Bol r) (O, s) g = run r (O, s) g.
Proof. simpl. now rewrite List.app_nil_r. Qed.

Lemma digits_length n s : digits n s = true -> String.length s = n.
Proof.
  unfold digits. intros H. apply andb_prop in H as [H _].
  now apply Nat.eqb_eq.
Qed.

Lemma digits_all n s : digits n s = true -> all is_digit s = true.
Proof. unfold digits. intros H. now apply andb_prop in H as [_ H]. Qed.

Lemma digits_nonempty n s : digits (S n) s = true -> s <> "".
Proof. intros H ->. discriminate. Qed.

Lemma all_ext p q s : (forall c, p c = q c) -> all p s = all q s.
Proof. intros E. induction s as [|c s IH]; simpl; [reflexivity | now rewrite E, IH]. Qed.

Lemma consumes_digits n w :
  digits n w = true -> consumes (Rep digit n) w (fun g => g).
Proof.
  intros H. apply consumes_Rep; [now apply digits_length |].
  rewrite (all_ext _ is_digit); [exact (digits_all n w H) |].
  intros c. unfold in_cls. simpl. now rewrite orb_false_r.
Qed.

Lemma consumes_month w :
  month_shape w = true -> consumes (Seq upper (Rep lower 2)) w (fun g => g).
Proof.
  destruct w as [|a [|b [|c [|d w]]]]; try discriminate.
  simpl. intros H.
  apply andb_prop in H as [H Hc]. apply andb_prop in H as [Ha Hb].
  change (String a (String b (String c "")))
    with (String a "" ++ String b (String c "")).
  apply (consumes_Seq upper (Rep lower 2) _ _ (fun g => g) (fun g => g)).
  - apply consumes_Cls. unfold in_cls. simpl. now rewrite Ha.
  - apply consumes_Rep; [reflexivity |].
    unfold in_cls. simpl. now rewrite Hb, Hc.
Qed.

End Matching.

(* ================================================================= *)
(** ** Facts about the monad *)

Section Monad.

Lemma bind_Return {A B} (a : A) (f : A -> M B) : bind (lift (Return a)) f = f a.
Proof. unfold bind, lift. now destruct (f a). Qed.

Lemma bind_ret {A B} (a : A) (f : A -> M B) : bind (ret a) f = f a.
Proof. exact (bind_Return a f). Qed.

Lemma bind_Raise {A B} (e : exn) (f : A -> M B) :
  bind (lift (Raise e)) f = raise e.
Proof. reflexivity. Qed.

Lemma bind_Return_log {A B} l (a : A) (f : A -> M B) :
  bind (l, Return a) f = ((l ++ logged (f a))%list, result (f a)).
Proof. cbn [bind]. now destruct (f a). Qed.

(** What a successful [mapM] says about every element. *)
Lemma mapM_Return {A B} (f : A -> M B) (l : list A) log bs :
  mapM f l = (log, Return bs) ->
  length bs = length l /\
  forall k a, nth_error l k = Some a ->
    exists la b, f a = (la, Return b) /\ nth_error bs k = Some b.
Proof.
  revert log bs. induction l as [|x l IH]; simpl; intros log bs H.
  - inversion H; subst. split; [reflexivity |].
    intros [|k] a Hk; discriminate.
  - unfold bind in H at 1.
    destruct (f x) as [lx [b|e]] eqn:Hx; [| discriminate].
    destruct (mapM f l) as [ll [bs'|e]] eqn:Hl; simpl in H; [| discriminate].
    inversion H; subst. destruct (IH _ _ eq_refl) as [Hlen Hnth].
    split; [simpl; now rewrite Hlen |].
    intros [|k] a Hk; simpl in Hk.
    + inversion Hk; subst. now exists lx, b.
    + destruct (Hnth k a Hk) as (la & b' & Ha & Hb). now exists la, b'.
Qed.

End Monad.

(* ================================================================= *)
(** ** Reading lines, field by field *)

Ltac split_wf H :=
  repeat match type of H with
         | (_ && _) = true =>
             let H' := fresh "Hwf" in apply andb_prop in H as [H H']
         end.

(** One step of a sequence whose head is settled by [tac]. *)
Ltac over w tac :=
  match goal with
  | |- context [run (Seq ?r1 ?r2) (?p, w ++ ?s) ?g] =>
      erewrite (run_Seq_consumes r1 r2 w _ p s g) by tac; cbv beta
  end.

Section ReadingLines.

Lemma run_Eol_at_end e p g : at_end e -> run Eol (p, e) g = [(g, (p, e))].
Proof. intros [-> | ->]; reflexivity. Qed.

Lemma run_Grp name r cur g :
  run (Grp name r) cur g
  = map (fun x => ((name, take (fst (snd x) - fst cur) (snd cur)) :: fst x, snd x))
        (run r cur g).
Proof. reflexivity. Qed.

Lemma run_Alt r1 r2 cur g :
  run (Alt r1 r2) cur g = (run r1 cur g ++ run r2 cur g)%list.
Proof. reflexivity. Qed.

Lemma run_Lit_blank_digit R r s p g :
  digits 3 r = true -> run (Seq (Lit "  ") R) (p, r ++ s) g = [].
Proof.
  intros H. destruct r as [|c r]; [discriminate |].
  pose proof (digits_all _ _ H) as Ha. simpl in Ha.
  apply andb_prop in Ha as [Hc _].
  rewrite run_Seq. cbn [run eat snd append].
  now rewrite (digit_not_blank _ Hc).
Qed.

(** The value group on a line that opens with three digits: the empty
    alternative is tried first and dies at the two blanks. *)
Lemma run_reading_digits R r s g :
  digits 3 r = true ->
  run (Seq (Grp "reading" (Alt (Lit "") (Rep digit 3))) (Seq (Lit "  ") R))
      (O, r ++ "  " ++ s) g
  = run R (5%nat, s) (("reading", r) :: g).
Proof.
  intros H. rewrite run_Seq, run_Grp, run_Alt.
  rewrite (consumes_digits 3 r H).
  change (run (Lit "") (O, r ++ "  " ++ s) g) with [(g, (O, r ++ "  " ++ s))].
  cbn [List.app map flat_map fst snd].
  rewrite (run_Lit_blank_digit R r _ _ _ H).
  cbn [List.app]. rewrite Nat.add_0_l, Nat.sub_0_r, take_append.
  rewrite (digits_length _ _ H).
  rewrite (run_Seq_consumes (Lit "  ") R "  " (fun g => g)) by apply consumes_Lit.
  now rewrite List.app_nil_r.
Qed.

(** The value group on a line that opens with the two blanks. *)
Lemma run_reading_empty R s g :
  run (Seq (Grp "reading" (Alt (Lit "") (Rep digit 3))) (Seq (Lit "  ") R))
      (O, "  " ++ s) g
  = run R (2%nat, s) (("reading", "") :: g).
Proof.
  rewrite run_Seq, run_Grp, run_Alt.
  change (run (Rep digit 3) (O, "  " ++ s) g) with (@nil (groups * cursor)).
  change (run (Lit "") (O, "  " ++ s) g) with [(g, (O, "  " ++ s))].
  cbn [List.app map flat_map fst snd Nat.sub take].
  rewrite (run_Seq_consumes (Lit "  ") R "  " (fun g => g)) by apply consumes_Lit.
  now rewrite List.app_nil_r.
Qed.

Lemma consumes_sentinel c :
  in_range "0" "1" c = true ->
  consumes (Seq (Lit "0x0") (Cls [("0"%char, "1"%char)]))
           ("0x0" ++ String c "") (fun g => g).
Proof.
  intros H.
  apply (consumes_Seq _ _ _ _ (fun g => g) (fun g => g)).
  - apply consumes_Lit.
  - apply consumes_Cls. unfold in_cls. simpl. now rewrite H.
Qed.

Lemma consumes_hm hh mm :
  digits 2 hh = true -> digits 2 mm = true ->
  consumes (seq_of [Rep digit 2; Lit ":"; Rep digit 2]) (hh ++ ":" ++ mm)
           (fun g => g).
Proof.
  intros Hh Hm. cbn [seq_of].
  apply (consumes_Seq _ _ _ _ (fun g => g) (fun g => g));
    [now apply consumes_digits |].
  apply (consumes_Seq _ _ _ _ (fun g => g) (fun g => g));
    [apply consumes_Lit | now apply consumes_digits].
Qed.

Lemma run_reading_tail f e p g :
  wf_reading_tail f = true -> at_end e ->
  exists q,
    run (seq_of [ Grp "month" (Seq upper (Rep lower 2)); Lit "  ";
                  Grp "day" (Rep digit 2); Lit " ";
                  Grp "year" (Rep digit 4); Lit " ";
                  Grp "time" (seq_of [Rep digit 2; Lit ":"; Rep digit 2]);
                  Lit " ";
                  Grp "type" (Rep digit 2); Lit " ";
                  Grp "sentinel" (Seq (Lit "0x0") (Cls [("0"%char, "1"%char)]));
                  Eol ])
        (p, reading_tail f e) g
    = [ (("sentinel", "0x0" ++ String (r_sentinel f) "")
           :: ("type", r_type f)
           :: ("time", r_hh f ++ ":" ++ r_mm f)
           :: ("year", r_year f)
           :: ("day", r_day f)
           :: ("month", r_month f) :: g, (q, e)) ].
Proof.
  intros Hwf He. unfold wf_reading_tail in Hwf. split_wf Hwf.
  unfold reading_tail. eexists.
  cbn [seq_of].
  over (r_month f) ltac:(apply consumes_Grp, consumes_month; assumption).
  over "  " ltac:(apply consumes_Lit).
  over (r_day f) ltac:(apply consumes_Grp, consumes_digits; assumption).
  over " " ltac:(apply consumes_Lit).
  over (r_year f) ltac:(apply consumes_Grp, consumes_digits; assumption).
  over " " ltac:(apply consumes_Lit).
  over (r_hh f ++ ":" ++ r_mm f)
       ltac:(apply consumes_Grp, consumes_hm; assumption).
  over " " ltac:(apply consumes_Lit).
  over (r_type f) ltac:(apply consumes_Grp, consumes_digits; assumption).
  over " " ltac:(apply consumes_Lit).
  over ("0x0" ++ String (r_sentinel f) "")
       ltac:(apply consumes_Grp, consumes_sentinel; assumption).
  rewrite (run_Eol_at_end e _ _ He). reflexivity.
Qed.

End ReadingLines.

Section ReadingRecords.

Lemma match_reading f e :
  reading_field_ok (r_reading f) = true -> wf_reading_tail f = true ->
  at_end e ->
  match_ _READING_RE (reading_text f e) = Some (reading_groups f).
Proof.
  intros Hr Hwf He. unfold match_, _READING_RE, reading_text, reading_groups.
  cbn [seq_of]. rewrite run_Seq_Bol.
  unfold reading_field_ok in Hr. apply orb_prop in Hr as [Hr|Hr].
  - apply String.eqb_eq in Hr. rewrite Hr.
    change ("" ++ "  " ++ reading_tail f e) with ("  " ++ reading_tail f e).
    rewrite run_reading_empty.
    destruct (run_reading_tail f e 2 [("reading", "")] Hwf He) as [q Hq].
    cbn [seq_of] in Hq. now rewrite Hq.
  - rewrite (run_reading_digits _ _ _ _ Hr).
    destruct (run_reading_tail f e 5 [("reading", r_reading f)] Hwf He)
      as [q Hq].
    cbn [seq_of] in Hq. now rewrite Hq.
Qed.

Lemma digit_not_H c : is_digit c = true -> Ascii.eqb c "H" = false.
Proof. every_char c. Qed.

Lemma reading_field_not_HI r :
  reading_field_ok r = true -> String.eqb r "HI " = false.
Proof.
  unfold reading_field_ok. intros H. apply orb_prop in H as [H|H].
  - apply String.eqb_eq in H. now subst r.
  - destruct r as [|c r]; [discriminate |].
    pose proof (digits_all _ _ H) as Ha. simpl in Ha.
    apply andb_prop in Ha as [Hc _].
    cbn [String.eqb]. now rewrite (digit_not_H _ Hc).
Qed.

Lemma int_digits_n n w : digits (S n) w = true -> int w = Return (decimal 0 w).
Proof.
  intros H. apply int_digits; [exact (digits_nonempty _ _ H) |].
  exact (digits_all _ _ H).
Qed.

Lemma wf_reading_tail_inv f :
  wf_reading_tail f = true ->
  month_shape (r_month f) = true /\ digits 2 (r_day f) = true
  /\ digits 4 (r_year f) = true /\ digits 2 (r_hh f) = true
  /\ digits 2 (r_mm f) = true /\ digits 2 (r_type f) = true
  /\ in_range "0" "1" (r_sentinel f) = true.
Proof.
  unfold wf_reading_tail. intros H.
  apply andb_prop in H as [H Hs]. apply andb_prop in H as [H Hty].
  apply andb_prop in H as [H Hmm]. apply andb_prop in H as [H Hhh].
  apply andb_prop in H as [H Hy]. apply andb_prop in H as [Hm Hd].
  repeat split; assumption.
Qed.

(** [_parse_resline] on a line the pattern accepts. *)
Lemma parse_resline_fields f e j :
  reading_field_ok (r_reading f) = true -> wf_reading_tail f = true ->
  at_end e ->
  _parse_resline (reading_text f e) j
  = (type_warning (r_type f), reading_record f).
Proof.
  intros Hr Hwf He. unfold _parse_resline.
  rewrite (match_reading f e Hr Hwf He).
  destruct (wf_reading_tail_inv f Hwf) as (_ & Hd & Hy & Hhh & Hmm & _ & _).
  change (group (reading_groups f) "reading") with (Return (r_reading f)).
  change (group (reading_groups f) "month") with (Return (r_month f)).
  change (group (reading_groups f) "day") with (Return (r_day f)).
  change (group (reading_groups f) "year") with (Return (r_year f)).
  change (group (reading_groups f) "time") with (Return (r_hh f ++ ":" ++ r_mm f)).
  change (group (reading_groups f) "type") with (Return (r_type f)).
  change (group (reading_groups f) "sentinel")
    with (Return ("0x0" ++ String (r_sentinel f) "")).
  repeat (rewrite bind_Return; cbv beta).
  rewrite (reading_field_not_HI _ Hr).
  rewrite (int_digits_n _ _ Hd), (int_digits_n _ _ Hy).
  rewrite (split_hm _ _ (digits_all _ _ Hhh) (digits_all _ _ Hmm)).
  cbn [map_int].
  rewrite (int_digits_n _ _ Hhh), (int_digits_n _ _ Hmm).
  unfold reading_record, type_warning.
  destruct (float (r_reading f)) as [v|ex];
    [| now destruct (String.eqb (r_type f) "00")].
  repeat (rewrite bind_Return; cbv beta).
  destruct (dict_getitem _MONTH_MATCHES (r_month f)) as [m|ex];
    [| now destruct (String.eqb (r_type f) "00")].
  repeat (rewrite bind_Return; cbv beta). cbv zeta.
  destruct (datetime_ (decimal 0 (r_year f)) m (decimal 0 (r_day f))
                      (decimal 0 (r_hh f)) (decimal 0 (r_mm f)) 0);
    now destruct (String.eqb (r_type f) "00").
Qed.

End ReadingRecords.

(* ================================================================= *)
(** ** Clock lines, field by field *)

Section ClockLines.

Lemma wf_clock_inv c :
  wf_clock c = true ->
  month_shape (c_month c) = true /\ digits 2 (c_day c) = true
  /\ digits 4 (c_year c) = true /\ digits 2 (c_hh c) = true
  /\ digits 2 (c_mm c) = true /\ digits 2 (c_ss c) = true.
Proof.
  unfold wf_clock. intros H.
  apply andb_prop in H as [H Hs]. apply andb_prop in H as [H Hmm].
  apply andb_prop in H as [H Hhh]. apply andb_prop in H as [H Hy].
  apply andb_prop in H as [Hm Hd].
  repeat split; assumption.
Qed.

Lemma consumes_hms hh mm ss :
  digits 2 hh = true -> digits 2 mm = true -> digits 2 ss = true ->
  consumes (seq_of [Rep digit 2; Lit ":"; Rep digit 2; Lit ":"; Rep digit 2])
           (hh ++ ":" ++ mm ++ ":" ++ ss) (fun g => g).
Proof.
  intros Hh Hm Hs. cbn [seq_of].
  apply (consumes_Seq _ _ _ _ (fun g => g) (fun g => g));
    [now apply consumes_digits |].
  apply (consumes_Seq _ _ _ _ (fun g => g) (fun g => g));
    [apply consumes_Lit |].
  apply (consumes_Seq _ _ _ _ (fun g => g) (fun g => g));
    [now apply consumes_digits |].
  apply (consumes_Seq _ _ _ _ (fun g => g) (fun g => g));
    [apply consumes_Lit | now apply consumes_digits].
Qed.

Lemma match_clock c e :
  wf_clock c = true -> at_end e ->
  match_ _CLOCK_RE (clock_text c e) = Some (clock_groups c).
Proof.
  intros Hwf He.
  destruct (wf_clock_inv c Hwf) as (Hm & Hd & Hy & Hhh & Hmm & Hss).
  unfold match_, _CLOCK_RE, clock_text, clock_groups.
  cbn [seq_of]. rewrite run_Seq_Bol.
  over (c_month c) ltac:(apply consumes_Grp, consumes_month; assumption).
  over "  " ltac:(apply consumes_Lit).
  over (c_day c) ltac:(apply consumes_Grp, consumes_digits; assumption).
  over " " ltac:(apply consumes_Lit).
  over (c_year c) ltac:(apply consumes_Grp, consumes_digits; assumption).
  over " " ltac:(apply consumes_Lit).
  over (c_hh c ++ ":" ++ c_mm c ++ ":" ++ c_ss c)
       ltac:(apply consumes_Grp, consumes_hms; assumption).
  now rewrite (run_Eol_at_end e _ _ He).
Qed.

(** [_parse_clock] on a line the pattern accepts. *)
Lemma parse_clock_fields c e :
  wf_clock c = true -> at_end e ->
  _parse_clock (clock_text c e) = lift (clock_value c).
Proof.
  intros Hwf He. unfold _parse_clock.
  rewrite (match_clock c e Hwf He).
  destruct (wf_clock_inv c Hwf) as (_ & Hd & Hy & Hhh & Hmm & Hss).
  change (group (clock_groups c) "month") with (Return (c_month c)).
  change (group (clock_groups c) "day") with (Return (c_day c)).
  change (group (clock_groups c) "year") with (Return (c_year c)).
  change (group (clock_groups c) "time")
    with (Return (c_hh c ++ ":" ++ c_mm c ++ ":" ++ c_ss c)).
  repeat (rewrite bind_Return; cbv beta).
  rewrite (int_digits_n _ _ Hd).
  repeat (rewrite bind_Return; cbv beta).
  unfold clock_value.
  destruct (dict_getitem _MONTH_MATCHES (c_month c)) as [m|ex];
    [| reflexivity].
  repeat (rewrite bind_Return; cbv beta).
  rewrite (int_digits_n _ _ Hy).
  repeat (rewrite bind_Return; cbv beta).
  rewrite (split_hms _ _ _ (digits_all _ _ Hhh) (digits_all _ _ Hmm)
                     (digits_all _ _ Hss)).
  cbn [map_int].
  rewrite (int_digits_n _ _ Hhh), (int_digits_n _ _ Hmm), (int_digits_n _ _ Hss).
  repeat (rewrite bind_Return; cbv beta).
  reflexivity.
Qed.

End ClockLines.

(* ================================================================= *)
(** ** The count line *)

Section CountLine.

Lemma chomp_app_NL w : chomp (w ++ NL) = w.
Proof.
  induction w as [|c w IH]; [reflexivity |].
  change (String c w ++ NL) with (String c (w ++ NL)).
  cbn [chomp]. rewrite IH. now destruct w.
Qed.

Lemma chomp_spec s : s = chomp s \/ s = chomp s ++ NL.
Proof.
  induction s as [|c s IH]; [now left |].
  destruct s as [|d s].
  - cbn [chomp]. destruct (Ascii.eqb_spec c LF) as [->|]; [now right | now left].
  - change (chomp (String c (String d s))) with (String c (chomp (String d s))).
    destruct IH as [IH|IH]; [left | right]; cbn [append]; now rewrite <- IH.
Qed.

Lemma chomp_snoc w c : c <> LF -> chomp (w ++ String c "") = w ++ String c "".
Proof.
  intros Hc. induction w as [|d w IH].
  - cbn. destruct (Ascii.eqb_spec c LF); [contradiction | reflexivity].
  - change (String d w ++ String c "") with (String d (w ++ String c "")).
    cbn [chomp]. rewrite IH. now destruct w.
Qed.

Lemma chomp_digits w : all is_digit w = true -> chomp w = w.
Proof.
  induction w as [|c w IH]; [reflexivity |].
  cbn [all]. intros H. apply andb_prop in H as [Hc Hw].
  cbn [chomp]. rewrite (IH Hw), (digit_not_LF _ Hc). now destruct w.
Qed.


Lemma chomp_length s : (String.length s <= S (String.length (chomp s)))%nat.
Proof.
  destruct (chomp_spec s) as [H|H]; rewrite H at 1; [lia |].
  rewrite length_append. simpl. lia.
Qed.

Lemma run_Rep_Cls rs n p s g :
  run (Rep (Cls rs) n) (p, s) g
  = match eat_cls rs n s with
    | Some s' => [(g, ((p + n)%nat, s'))]
    | None => []
    end.
Proof.
  revert p s. induction n as [|n IH]; intros p s.
  - cbn. now rewrite Nat.add_0_r.
  - rewrite run_Rep_S. destruct s as [|c s]; [reflexivity |].
    change (run (Cls rs) (p, String c s) g)
      with (if in_cls rs c then [(g, (S p, s))] else []).
    cbn [eat_cls]. destruct (in_cls rs c); [| reflexivity].
    cbn [flat_map fst snd]. rewrite IH, List.app_nil_r.
    replace (S p + n)%nat with (p + S n)%nat by lia. reflexivity.
Qed.

Lemma eat_cls_sound rs n s s' :
  eat_cls rs n s = Some s' ->
  exists w, s = w ++ s' /\ String.length w = n /\ all (in_cls rs) w = true.
Proof.
  revert s. induction n as [|n IH]; cbn [eat_cls]; intros s H.
  - inversion H; subst. now exists "".
  - destruct s as [|c s]; [discriminate |].
    destruct (in_cls rs c) eqn:Hc; [| discriminate].
    destruct (IH _ H) as (w & -> & Hl & Ha).
    exists (String c w). repeat split; cbn; [now rewrite Hl | now rewrite Hc].
Qed.

Lemma eat_cls_append rs w s :
  all (in_cls rs) w = true -> eat_cls rs (String.length w) (w ++ s) = Some s.
Proof.
  induction w as [|c w IH]; cbn; [reflexivity |].
  intros H. apply andb_prop in H as [Hc Hw]. now rewrite Hc, IH.
Qed.

Lemma in_cls_digit c : in_cls [("0"%char, "9"%char)] c = is_digit c.
Proof. unfold in_cls. cbn [existsb fst snd]. now rewrite orb_false_r. Qed.

(** What [_COUNT_RE.match] answers, for every text. *)
Lemma match_count s :
  match_ _COUNT_RE s
  = if digits 3 (chomp s) then Some [("nrresults", chomp s)] else None.
Proof.
  unfold match_, _COUNT_RE. cbn [seq_of].
  rewrite run_Seq_Bol, run_Seq, run_Grp. unfold digit. rewrite run_Rep_Cls.
  destruct (eat_cls _ 3 s) as [s'|] eqn:E.
  - destruct (eat_cls_sound _ _ _ _ E) as (w & -> & Hl & Ha).
    rewrite (all_ext _ _ w in_cls_digit) in Ha.
    assert (Hw : digits 3 w = true)
      by (unfold digits; now rewrite Hl, Ha).
    assert (Ht : take 3 (w ++ s') = w)
      by (rewrite <- Hl; apply take_append).
    cbn [map flat_map fst snd Nat.add Nat.sub].
    rewrite Ht, List.app_nil_r.
    destruct s' as [|c [|d s'']].
    + rewrite append_nil_r, (chomp_digits w Ha), Hw. reflexivity.
    + cbn [run snd]. destruct (Ascii.eqb_spec c LF) as [->|Hc].
      * change (String LF "") with NL. now rewrite chomp_app_NL, Hw.
      * rewrite (chomp_snoc w c Hc). unfold digits.
        rewrite length_append, Hl. reflexivity.
    + cbn [run snd].
      pose proof (chomp_length (w ++ String c (String d s''))) as Hlen.
      rewrite length_append, Hl in Hlen. cbn [String.length] in Hlen.
      unfold digits.
      destruct (Nat.eqb_spec
                  (String.length (chomp (w ++ String c (String d s'')))) 3)
        as [E3|]; [lia | reflexivity].
  - destruct (digits 3 (chomp s)) eqn:Hd; [| reflexivity].
    exfalso.
    pose proof (digits_all _ _ Hd) as Ha.
    rewrite <- (all_ext _ _ (chomp s) in_cls_digit) in Ha.
    pose proof (eat_cls_append _ (chomp s) "" Ha) as E1.
    pose proof (eat_cls_append _ (chomp s) NL Ha) as E2.
    rewrite (digits_length _ _ Hd) in E1, E2.
    destruct (chomp_spec s) as [H|H]; rewrite H in E.
    + rewrite append_nil_r in E1. congruence.
    + congruence.
Qed.

(** What [_EMPTY_RE.match] answers, for every text. *)
Lemma match_empty s :
  match_ _EMPTY_RE s
  = if String.eqb (chomp s) "Log Empty END"
    then Some [("empty", "Log Empty END")] else None.
Proof.
  unfold match_, _EMPTY_RE. cbn [seq_of].
  rewrite run_Seq_Bol, run_Seq, run_Grp. cbn [run snd fst].
  destruct (eat "Log Empty END" s) as [s'|] eqn:E.
  - apply eat_sound in E. subst s.
    destruct s' as [|c [|d s'']].
    + reflexivity.
    + cbn. destruct (Ascii.eqb c LF); reflexivity.
    + cbn. reflexivity.
  - destruct (String.eqb_spec (chomp s) "Log Empty END") as [H|]; [| reflexivity].
    exfalso. destruct (chomp_spec s) as [H'|H']; rewrite H in H'; subst s;
      discriminate.
Qed.

End CountLine.

(* ================================================================= *)
(** ** Properties of the line parsers *)

Section LineParsers.

Lemma dict_getitem_missing d k :
  ~ In k (map fst d) -> dict_getitem d k = Raise (KeyError k).
Proof.
  induction d as [|[k' v] d IH]; cbn [dict_getitem map fst In]; intros H.
  - reflexivity.
  - destruct (String.eqb_spec k' k) as [->|]; [| apply IH]; tauto.
Qed.

Lemma match_long_month r mon c rest :
  reading_field_ok r = true -> month_shape mon = true -> c <> " "%char ->
  match_ _READING_RE (r ++ "  " ++ mon ++ String c rest) = None.
Proof.
  intros Hr Hm Hc. unfold match_, _READING_RE. cbn [seq_of].
  rewrite run_Seq_Bol.
  assert (Hstop : forall R p g,
             run (Seq (Grp "month" (Seq upper (Rep lower 2)))
                      (Seq (Lit "  ") R)) (p, mon ++ String c rest) g = []).
  { intros R p g.
    over mon ltac:(apply consumes_Grp, consumes_month; assumption).
    rewrite run_Seq. cbn [run eat snd].
    destruct (Ascii.eqb_spec " " c) as [E|]; [now subst c | reflexivity]. }
  unfold reading_field_ok in Hr. apply orb_prop in Hr as [Hr|Hr].
  - apply String.eqb_eq in Hr. subst r.
    change ("" ++ "  " ++ mon ++ String c rest)
      with ("  " ++ mon ++ String c rest).
    now rewrite run_reading_empty, Hstop.
  - now rewrite (run_reading_digits _ _ _ _ Hr), Hstop.
Qed.

End LineParsers.

(** C3, as the code has it: a reading line whose value field is [HI ]
    never matches the reading pattern, whatever follows the field, so
    [_parse_resline] raises the invalid-response error for it; the record
    with an infinite value that the function would build for [HI ] is
    never reached.  The well-formed line
    [HI   Feb  03 2017 08:15 00 0x00] is one such line. *)
Theorem HI_reading_rejected :
  (forall rest j,
      _parse_resline ("HI " ++ rest) j
      = raise (InvalidResponse
                 ("error line " ++ fmt_d j ++ " = " ++ "HI " ++ rest)))
  /\ _parse_resline "HI   Feb  03 2017 08:15 00 0x00" 6
     = raise (InvalidResponse "error line 6 = HI   Feb  03 2017 08:15 00 0x00").
Proof.
  split; [intros rest j | reflexivity].
  unfold _parse_resline.
  change (match_ _READING_RE ("HI " ++ rest)) with (@None groups).
  reflexivity.
Qed.

(** C6, as the code has it: on a reading line whose month is followed by
    a fourth character other than a blank (the long spellings [June],
    [July]), the reading pattern does not match and [_parse_resline]
    raises the invalid-response error, while the same line with the
    clean three-letter abbreviation goes on to the month table. *)
Theorem long_month_rejected (f : reading_fields) (c : ascii) (rest : string)
    (j : Z) :
  reading_field_ok (r_reading f) = true ->
  wf_reading_tail f = true ->
  c <> " "%char ->
  let long := r_reading f ++ "  " ++ r_month f ++ String c rest in
  _parse_resline long j
  = raise (InvalidResponse ("error line " ++ fmt_d j ++ " = " ++ long))
  /\ _parse_resline (reading_line f) j
     = (type_warning (r_type f), reading_record f).
Proof.
  intros Hr Hwf Hc long. split.
  - destruct (wf_reading_tail_inv f Hwf) as (Hm & _).
    unfold _parse_resline, long.
    now rewrite (match_long_month _ _ _ _ Hr Hm Hc).
  - apply parse_resline_fields; [assumption | assumption | now left].
Qed.

Lemma long_month_rejected_witness :
  _parse_resline "123  June 03 2017 08:15 00 0x00" 6
  = raise (InvalidResponse "error line 6 = 123  June 03 2017 08:15 00 0x00")
  /\ result (_parse_resline "123  Jun  03 2017 08:15 00 0x00" 6)
     = Return (mkResLine (Finite 123) 3 6 2017 8 15
                         (mkDatetime 2017 6 3 8 15 0) "123" "00" "0x00").
Proof.
  destruct (long_month_rejected june_reading "e" " 03 2017 08:15 00 0x00" 6)
    as [H1 H2]; [reflexivity | reflexivity | discriminate |].
  split; [exact H1 |].
  change "123  Jun  03 2017 08:15 00 0x00" with (reading_line june_reading).
  rewrite H2. reflexivity.
Defined.

(** C7, as the code has it: a clock line or a reading line in the shape
    the pattern accepts whose month is not a key of the month table makes
    the table lookup raise [KeyError]; no invalid-response error is
    raised.  (The reading line is taken with three digits in its value
    field, so that the lookup is reached.) *)
Theorem unknown_month_KeyError (c : clock_fields) (f : reading_fields)
    (j : Z) :
  wf_clock c = true ->
  ~ In (c_month c) (map fst _MONTH_MATCHES) ->
  digits 3 (r_reading f) = true ->
  wf_reading_tail f = true ->
  ~ In (r_month f) (map fst _MONTH_MATCHES) ->
  _parse_clock (clock_line c) = raise (KeyError (c_month c))
  /\ result (_parse_resline (reading_line f) j) = Raise (KeyError (r_month f)).
Proof.
  intros Hc Hcm Hr Hf Hfm. split.
  - unfold clock_line. rewrite (parse_clock_fields c "" Hc (or_introl eq_refl)).
    unfold clock_value. now rewrite (dict_getitem_missing _ _ Hcm).
  - unfold reading_line.
    rewrite (parse_resline_fields f "" j); [| | assumption | now left].
    + unfold result, reading_record. cbn [snd].
      rewrite (float_digits _ (digits_nonempty _ _ Hr) (digits_all _ _ Hr)).
      now rewrite (dict_getitem_missing _ _ Hfm).
    + unfold reading_field_ok. now rewrite Hr, orb_true_r.
Qed.

Lemma unknown_month_KeyError_witness :
  _parse_clock "Abc  01 2017 12:00:00" = raise (KeyError "Abc")
  /\ result (_parse_resline "123  Abc  03 2017 08:15 00 0x00" 6)
     = Raise (KeyError "Abc").
Proof.
  apply (unknown_month_KeyError abc_clock abc_reading 6);
    try reflexivity;
    cbn; intros H; repeat (destruct H as [H|H]; [discriminate |]); exact H.
Defined.




(** C10: a line that opens with the two blanks (an empty value field)
    and goes on with well-formed month, day, year, time, type code and
    sentinel matches the reading pattern with the empty string captured
    as the value, and [_parse_resline] then fails in [float] with a
    [ValueError], not with the invalid-response error. *)
Theorem empty_value_field_ValueError (f : reading_fields) (j : Z) :
  wf_reading_tail f = true ->
  let line := "  " ++ reading_tail f "" in
  (exists m, match_ _READING_RE line = Some m
             /\ group m "reading" = Return "")
  /\ result (_parse_resline line j) = Raise (ValueError (BadFloat "")).
Proof.
  intros Hwf line.
  assert (Hwf' : wf_reading_tail (with_reading f "") = true) by exact Hwf.
  assert (Hr : reading_field_ok (r_reading (with_reading f "")) = true)
    by reflexivity.
  split.
  - exists (reading_groups (with_reading f "")). split; [| reflexivity].
    exact (match_reading (with_reading f "") "" Hr Hwf' (or_introl eq_refl)).
  - change line with (reading_text (with_reading f "") "").
    now rewrite (parse_resline_fields _ "" j Hr Hwf' (or_introl eq_refl)).
Qed.

Lemma empty_value_field_ValueError_witness :
  result (_parse_resline "  Jun  03 2017 08:15 00 0x00" 6)
  = Raise (ValueError (BadFloat "")).
Proof.
  exact (proj2 (empty_value_field_ValueError june_reading 6 eq_refl)).
Defined.

(* ================================================================= *)
(** ** Properties of the response assembler *)

Section Assembler.

Lemma bind_Return_inv {A B} (m : M A) (f : A -> M B) log b :
  bind m f = (log, Return b) ->
  exists l1 a l2,
    m = (l1, Return a) /\ f a = (l2, Return b) /\ log = (l1 ++ l2)%list.
Proof.
  destruct m as [l1 [a|e]]; cbn [bind]; [| discriminate].
  destruct (f a) as [l2 r] eqn:Hf. intros H. inversion H; subst.
  now exists l1, a, l2.
Qed.

Lemma lift_Return_inv {A} (o : outcome A) log a :
  lift o = (log, Return a) -> o = Return a /\ log = [].
Proof. unfold lift. intros H. inversion H. now split. Qed.

(** The guard [if b: log; raise] lets control through only when [b] is
    false. *)
Lemma guard_Return_inv (b : bool) (m : M unit) e log u :
  (if b then m ;;; raise e else ret tt) = (log, Return u) ->
  b = false /\ log = [].
Proof.
  destruct b.
  - destruct m as [l [[]|e']]; discriminate.
  - intros H. inversion H. now split.
Qed.

Lemma range_length a b : length (range a b) = Z.to_nat (b - a).
Proof. unfold range. now rewrite length_map, length_seq. Qed.

Lemma range_nth a b k :
  (k < Z.to_nat (b - a))%nat -> nth_error (range a b) k = Some (a + Z.of_nat k).
Proof.
  intros Hk. unfold range.
  rewrite nth_error_map, nth_error_seq.
  destruct (Nat.ltb_spec k (Z.to_nat (b - a))); [reflexivity | lia].
Qed.

(** What the assembler has checked when it returns. *)
Lemma parse_result_Return data log res :
  _parse_result data = (log, Return res) ->
  let n := device_nrresults_ (info res) in
  exists l1 l2 l3 line,
    _parse_info data = (l1, Return (info res))
    /\ 0 < n
    /\ len data = _INFO_SIZE + n + 2
    /\ getitem data _INFO_SIZE = Return ""
    /\ read_lines data (_INFO_SIZE + 1) (_INFO_SIZE + 1 + n)
       = (l2, Return (reslog res))
    /\ getitem data (_INFO_SIZE + 1 + n) = Return line
    /\ _parse_checksum line = (l3, Return (checksum res))
    /\ log = (l1 ++ l2 ++ l3)%list.
Proof.
  unfold _parse_result. intros H.
  apply bind_Return_inv in H as (l1 & inf & lr & Hinfo & H & ->).
  cbv zeta in H.
  apply bind_Return_inv in H as (la & len1 & lb & Hlen & H & ->).
  apply bind_Return_inv in H as (lc & u & ld & Hck & H & ->).
  apply bind_Return_inv in H as (l2 & rl & le & Hmap & H & ->).
  apply bind_Return_inv in H as (lf & ck & lg & Hc & H & ->).
  destruct ck as [c|]; [| discriminate].
  assert (Hlg : lg = [] /\ res = mkResult inf rl c)
    by (unfold ret in H; now inversion H).
  destruct Hlg as [-> ->]. clear H. cbn [info reslog checksum].
  destruct (Z.gtb_spec (device_nrresults_ inf) 0) as [Hn|Hn];
    [| discriminate].
  destruct (Z.eqb_spec (device_nrresults_ inf) 0) as [E|_]; [lia |].
  apply bind_Return_inv in Hlen as (l5 & d5 & l6 & H5 & Hlen & ->).
  apply lift_Return_inv in H5 as [H5 ->].
  apply bind_Return_inv in Hlen as (l7 & u7 & l8 & Hblank & Hlen & ->).
  apply guard_Return_inv in Hblank as [Hblank ->].
  apply negb_false_iff, String.eqb_eq in Hblank. subst d5.
  assert (Hl8 : l8 = [] /\ len1 = _INFO_SIZE + device_nrresults_ inf + 2)
    by (unfold ret in Hlen; now inversion Hlen).
  destruct Hl8 as [-> ->]. clear Hlen.
  apply guard_Return_inv in Hck as [Hck ->].
  apply negb_false_iff, Z.eqb_eq in Hck.
  apply bind_Return_inv in Hc as (l9 & line & l10 & Hline & Hc & ->).
  apply lift_Return_inv in Hline as [Hline ->].
  apply bind_Return_inv in Hc as (l3 & c' & l11 & Hsum & Hc & ->).
  assert (Hl11 : l11 = [] /\ c' = c) by (unfold ret in Hc; now inversion Hc).
  destruct Hl11 as [-> ->]. clear Hc.
  exists l1, l2, l3, line. repeat split; try assumption.
  cbn [List.app]. now rewrite !List.app_nil_r.
Qed.

(** Conversely, these checks are all the assembler asks for. *)
Lemma parse_result_intro data l1 l2 l3 inf rl line c :
  _parse_info data = (l1, Return inf) ->
  0 < device_nrresults_ inf ->
  len data = _INFO_SIZE + device_nrresults_ inf + 2 ->
  getitem data _INFO_SIZE = Return "" ->
  read_lines data (_INFO_SIZE + 1) (_INFO_SIZE + 1 + device_nrresults_ inf)
  = (l2, Return rl) ->
  getitem data (_INFO_SIZE + 1 + device_nrresults_ inf) = Return line ->
  _parse_checksum line = (l3, Return c) ->
  _parse_result data = ((l1 ++ l2 ++ l3)%list, Return (mkResult inf rl c)).
Proof.
  intros Hinfo Hn Hlen H5 Hmap Hline Hsum. unfold _parse_result.
  rewrite Hinfo, bind_Return_log. cbv zeta.
  destruct (Z.eqb_spec (device_nrresults_ inf) 0) as [E|_]; [lia |].
  rewrite H5, bind_Return. cbn [String.eqb negb].
  rewrite !bind_ret. rewrite Hlen, Z.eqb_refl. cbn [negb].
  rewrite bind_ret. fold (read_lines data (_INFO_SIZE + 1)
                            (_INFO_SIZE + 1 + device_nrresults_ inf)).
  rewrite Hmap, bind_Return_log.
  destruct (Z.gtb_spec (device_nrresults_ inf) 0) as [_|]; [| lia].
  rewrite Hline, bind_Return, Hsum, bind_Return_log.
  cbn. now rewrite !List.app_nil_r.
Qed.

Lemma getitem_Return {A} (l : list A) i :
  0 <= i < len l ->
  exists a, getitem l i = Return a /\ nth_error l (Z.to_nat i) = Some a.
Proof.
  intros Hi. unfold getitem.
  destruct (Z.ltb_spec i 0); [lia |].
  destruct (Z.leb_spec 0 i); [| lia].
  destruct (Z.ltb_spec i (len l)); [| lia]. cbn [andb].
  destruct (nth_error l (Z.to_nat i)) as [a|] eqn:E; [now exists a |].
  apply nth_error_None in E. unfold len in Hi. lia.
Qed.

Lemma getitem_out_of_range {A} (l : list A) i :
  len l <= i -> getitem l i = Raise IndexError.
Proof.
  intros Hi. unfold getitem. pose proof (Nat2Z.is_nonneg (length l)).
  unfold len in *.
  destruct (Z.ltb_spec i 0); [lia |].
  destruct (Z.ltb_spec i (Z.of_nat (length l))); [lia |].
  now rewrite andb_false_r.
Qed.

End Assembler.

(* ================================================================= *)
(** ** The checksum line *)

Section ChecksumLine.

Lemma hex_upper_not_space c : hex_upper c = true -> is_space c = false.
Proof. every_char c. Qed.

Lemma hex_upper_digit c :
  hex_upper c = true -> exists d, hex_digit c = Some d /\ 0 <= d < 16.
Proof.
  destruct c as [[] [] [] [] [] [] [] []]; intros H; vm_compute in H;
    try discriminate; eexists; (split; [vm_compute; reflexivity | lia]).
Qed.

Lemma rstrip_no_space w :
  all (fun c => negb (is_space c)) w = true -> rstrip w = w.
Proof.
  induction w as [|c w IH]; cbn [all rstrip]; [reflexivity |].
  intros H. apply andb_prop in H as [Hc Hw].
  apply negb_true_iff in Hc. rewrite (IH Hw), Hc. now destruct w.
Qed.

Lemma run_Lit p cur g :
  run (Lit p) cur g
  = match eat p (snd cur) with
    | Some s' => [(g, ((fst cur + String.length p)%nat, s'))]
    | None => []
    end.
Proof. reflexivity. Qed.

Lemma in_cls_hex c :
  in_cls [("0"%char, "9"%char); ("A"%char, "F"%char)] c = hex_upper c.
Proof. unfold in_cls, hex_upper. cbn [existsb fst snd]. now rewrite orb_false_r. Qed.


End ChecksumLine.

(* ================================================================= *)
(** ** Properties of the whole parse *)

Section WholeParse.



(** Away from the five-line case of a non-empty log, a response whose
    shape does not fit its result count is refused as invalid. *)
Lemma structural_mismatch_InvalidResponse data l inf :
  _parse_info data = (l, Return inf) ->
  let n := device_nrresults_ inf in
  (n = 0 /\ len data <> _INFO_SIZE)
  \/ (n <> 0 /\ _INFO_SIZE < len data
      /\ (len data <> _INFO_SIZE + n + 2
          \/ getitem data _INFO_SIZE <> Return "")) ->
  result (_parse_result data) = Raise (InvalidResponse (join NL data)).
Proof.
  intros Hinfo n H. unfold _parse_result. rewrite Hinfo, bind_Return_log.
  unfold result. cbn [snd]. fold n.
  destruct H as [[Hn Hlen] | (Hn & Hlen & H)].
  - rewrite Hn. cbn [Z.eqb]. rewrite bind_ret.
    destruct (Z.eqb_spec (len data) _INFO_SIZE) as [E|_]; [contradiction |].
    reflexivity.
  - destruct (Z.eqb_spec n 0) as [E|_]; [contradiction |].
    destruct (getitem_Return data _INFO_SIZE) as (d5 & H5 & _);
      [unfold _INFO_SIZE in Hlen |- *; lia |].
    rewrite H5, bind_Return.
    destruct (String.eqb_spec d5 "") as [->|Hd5]; cbn [negb].
    + rewrite bind_ret, bind_ret.
      destruct H as [H|H]; [| contradiction].
      destruct (Z.eqb_spec (len data) (_INFO_SIZE + n + 2)) as [E|_];
        [contradiction | reflexivity].
    + reflexivity.
Qed.

(** With a result count of zero the assembler never returns: the line
    count is wrong, or the unbound [checksum] is read. *)
Lemma count_zero_never_returns data l inf :
  _parse_info data = (l, Return inf) ->
  device_nrresults_ inf = 0 ->
  result (_parse_result data)
  = Raise (if (len data =? _INFO_SIZE)%Z then UnboundLocalError "checksum"
           else InvalidResponse (join NL data)).
Proof.
  intros Hinfo Hn. unfold _parse_result. rewrite Hinfo, bind_Return_log.
  unfold result. cbn [snd]. rewrite Hn. cbn [Z.eqb]. rewrite bind_ret.
  destruct (len data =? _INFO_SIZE)%Z; reflexivity.
Qed.

End WholeParse.

(** C1, as the code has it: on the five lines of the empty-log example
    the info block parses to the record of the claim (version and
    revision [0.22], clock 2017-01-01T12:00:00, count 0, serial [N/A],
    unit mg/dL), and the assembler then reads its local [checksum], which
    the empty-log path never binds: [_parse_result] raises
    [UnboundLocalError] and so does [_fetch_device_information]. *)
Theorem empty_log_UnboundLocalError :
  _parse_info empty_log
  = ret (mkInfo "0.22" "0.22" "N/A" MG_DL (mkDatetime 2017 1 1 12 0 0) 0)
  /\ _parse_result empty_log = raise (UnboundLocalError "checksum")
  /\ _fetch_device_information empty_log
     = raise (UnboundLocalError "checksum").
Proof. repeat split. Qed.



(** C4, as the code has it: when the info block parses with a result
    count above zero and the response has exactly five lines, the
    assembler reads line 5 before it compares the line count and the
    index is out of range: [_parse_result] raises [IndexError], not the
    invalid-response error. *)
Theorem truncated_response_IndexError (data : list string)
    (l : list LogRecord) (inf : Info) :
  _parse_info data = (l, Return inf) ->
  0 < device_nrresults_ inf ->
  len data = _INFO_SIZE ->
  _parse_result data = (l, Raise IndexError).
Proof.
  intros Hinfo Hn Hlen. unfold _parse_result.
  rewrite Hinfo, bind_Return_log.
  destruct (Z.eqb_spec (device_nrresults_ inf) 0) as [E|_]; [lia |].
  rewrite (getitem_out_of_range data _INFO_SIZE) by lia.
  cbn. now rewrite List.app_nil_r.
Qed.

Lemma truncated_response_IndexError_witness :
  _parse_result truncated_after_info = ([], Raise IndexError).
Proof.
  apply (truncated_response_IndexError truncated_after_info []
           (mkInfo "0.22" "0.22" "N/A" MG_DL (mkDatetime 2017 1 1 12 0 0) 1));
    reflexivity.
Defined.

(** C5: when the assembler accepts a response, the info record it
    returns is the one [_parse_info] reads from the info block of that
    response; the reading sequence has as many records as the result
    count [n] of that info block, and for every [i] below [n] its [i]-th
    record is the one [_parse_resline] returns for the [i]-th reading
    line, line [6 + i] of the response. *)
Theorem readings_in_transcript_order (data : list string)
    (log : list LogRecord) (res : Result) :
  _parse_result data = (log, Return res) ->
  let n := device_nrresults_ (info res) in
  (exists l, _parse_info data = (l, Return (info res)))
  /\ len (reslog res) = n
  /\ forall i, 0 <= i < n ->
       exists line li r,
         getitem data (_INFO_SIZE + 1 + i) = Return line
         /\ _parse_resline line (_INFO_SIZE + 1 + i) = (li, Return r)
         /\ nth_error (reslog res) (Z.to_nat i) = Some r.
Proof.
  intros Hres n.
  destruct (parse_result_Return data log res Hres)
    as (l1 & l2 & l3 & line & Hinfo & Hn & _ & _ & Hmap & _ & _ & _).
  fold n in Hn, Hmap. unfold read_lines in Hmap.
  apply mapM_Return in Hmap as [Hlen Hnth].
  rewrite range_length in Hlen.
  split; [now exists l1 |].
  split; [unfold len; rewrite Hlen; lia |].
  intros i Hi.
  destruct (Hnth (Z.to_nat i) (_INFO_SIZE + 1 + i)) as (la & r & Hr & Hk).
  { rewrite range_nth by lia. f_equal. lia. }
  apply bind_Return_inv in Hr as (l5 & ln & l6 & Hg & Hp & _).
  apply lift_Return_inv in Hg as [Hg _].
  now exists ln, l6, r.
Qed.

Lemma readings_in_transcript_order_witness :
  (exists l, _parse_info two_readings = (l, Return (info two_readings_result)))
  /\ len (reslog two_readings_result) = 2
  /\ forall i, 0 <= i < 2 ->
       exists line li r,
         getitem two_readings (_INFO_SIZE + 1 + i) = Return line
         /\ _parse_resline line (_INFO_SIZE + 1 + i) = (li, Return r)
         /\ nth_error (reslog two_readings_result) (Z.to_nat i) = Some r.
Proof.
  exact (readings_in_transcript_order two_readings [] two_readings_result
           eq_refl).
Defined.

(* ================================================================= *)
(** ** Type codes other than [00] *)

Section TypeCodes.

Lemma reading_record_with_type f :
  reading_record f
  = match reading_record (with_type f "00") with
    | Return r => Return (retype (r_type f) r)
    | Raise e => Raise e
    end.
Proof.
  unfold reading_record, with_type.
  cbn [r_reading r_month r_day r_year r_hh r_mm r_type r_sentinel].
  destruct (float (r_reading f)); [| reflexivity].
  destruct (dict_getitem _MONTH_MATCHES (r_month f)); [| reflexivity].
  cbv zeta. now destruct (datetime_ _ _ _ _ _ _).
Qed.

Lemma wf_with_type_00 f :
  wf_reading_tail f = true -> wf_reading_tail (with_type f "00") = true.
Proof.
  intros H. destruct (wf_reading_tail_inv f H) as (Hm & Hd & Hy & Hh & Hmi & _ & Hs).
  unfold wf_reading_tail, with_type.
  cbn [r_month r_day r_year r_hh r_mm r_type r_sentinel].
  now rewrite Hm, Hd, Hy, Hh, Hmi, Hs.
Qed.

Lemma len_app_cons {A} (pre post : list A) x :
  len (pre ++ x :: post) = len pre + 1 + len post.
Proof. unfold len. rewrite length_app. cbn [length]. lia. Qed.

Lemma getitem_app_here {A} (pre post : list A) x :
  getitem (pre ++ x :: post) (len pre) = Return x.
Proof.
  destruct (getitem_Return (pre ++ x :: post) (len pre)) as (a & Ha & Hn).
  - rewrite len_app_cons. unfold len. lia.
  - rewrite Ha. unfold len in Hn.
    rewrite Nat2Z.id, nth_error_app2, Nat.sub_diag in Hn by lia.
    cbn in Hn. congruence.
Qed.

Lemma getitem_app_other {A} (pre post : list A) x y k :
  0 <= k -> k <> len pre ->
  getitem (pre ++ x :: post) k = getitem (pre ++ y :: post) k.
Proof.
  intros H0 Hk. unfold getitem. rewrite !len_app_cons.
  destruct (Z.ltb_spec k 0); [lia |].
  destruct ((0 <=? k)%Z && (k <? len pre + 1 + len post)%Z); [| reflexivity].
  unfold len in Hk.
  destruct (Nat.lt_ge_cases (Z.to_nat k) (length pre)) as [Hlt|Hge].
  - now rewrite !nth_error_app1 by exact Hlt.
  - rewrite !nth_error_app2 by exact Hge.
    destruct (Z.to_nat k - length pre)%nat as [|m] eqn:E; [lia | reflexivity].
Qed.

Lemma range_In a b j : In j (range a b) -> a <= j < b.
Proof.
  unfold range. intros H. apply in_map_iff in H as (k & <- & Hk).
  apply in_seq in Hk. lia.
Qed.

(** The info block reads the line count and the first five lines only. *)
Lemma parse_info_ext data0 data1 l inf :
  len data0 = len data1 ->
  (forall k, 0 <= k < _INFO_SIZE -> getitem data1 k = getitem data0 k) ->
  _parse_info data0 = (l, Return inf) -> _parse_info data1 = (l, Return inf).
Proof.
  intros Hlen Hget. unfold _parse_info. rewrite <- Hlen.
  rewrite !Hget by (unfold _INFO_SIZE; lia).
  destruct (len data0 <? _INFO_SIZE)%Z; [discriminate |].
  rewrite !bind_ret.
  destruct (getitem data0 0) as [d0|]; [| discriminate].
  rewrite !bind_Return.
  destruct (String.eqb d0 ""); [| discriminate].
  cbn [negb]. now rewrite !bind_ret.
Qed.

(** Two runs of the same loop whose steps agree up to a relation on the
    results and one more log record. *)
Lemma mapM_Forall2 {A B} (R : B -> B -> Prop) (w : LogRecord)
    (F0 F1 : A -> M B) (l : list A) :
  (forall a l0 r0, In a l -> F0 a = (l0, Return r0) ->
     exists l1 r1, F1 a = (l1, Return r1) /\ R r0 r1
                   /\ forall r, In r l1 -> In r l0 \/ r = w) ->
  forall lg0 rl0, mapM F0 l = (lg0, Return rl0) ->
  exists lg1 rl1, mapM F1 l = (lg1, Return rl1) /\ Forall2 R rl0 rl1
                  /\ forall r, In r lg1 -> In r lg0 \/ r = w.
Proof.
  induction l as [|a l IH]; intros Hstep lg0 rl0 H.
  - cbn in H. inversion H; subst. exists [], []. repeat split; [constructor |].
    intros r [].
  - cbn [mapM] in H.
    apply bind_Return_inv in H as (la & b & lb & Ha & H & ->).
    apply bind_Return_inv in H as (lc & bs & ld & Hl & H & ->).
    assert (E : ld = [] /\ rl0 = b :: bs) by (unfold ret in H; now inversion H).
    destruct E as [-> ->]. clear H.
    destruct (Hstep a la b (or_introl eq_refl) Ha) as (la' & b' & Ha' & Hb & Hla).
    destruct (IH (fun x l0 r0 Hx => Hstep x l0 r0 (or_intror Hx)) lc bs Hl)
      as (lc' & bs' & Hl' & Hbs & Hlc).
    exists (la' ++ lc')%list, (b' :: bs'). repeat split.
    + cbn [mapM]. rewrite Ha', bind_Return_log, Hl', bind_Return_log.
      cbn. now rewrite !List.app_nil_r.
    + now constructor.
    + intros r Hr. rewrite List.app_nil_r.
      apply in_app_or in Hr as [Hr|Hr].
      * destruct (Hla r Hr); [left; apply in_or_app; now left | now right].
      * destruct (Hlc r Hr); [left; apply in_or_app; now right | now right].
Qed.

End TypeCodes.

(** C9: a reading line the pattern accepts whose type code is not [00]
    is parsed like the same line with [00]: nothing is logged for the
    [00] line, one warning and no other record is logged for the line
    itself, and the outcome is the same but for the type code kept in the
    record, so value and timestamp agree.  Inside a response, when the
    response with the [00] line is accepted by the assembler, so is the
    response with the line itself: the info block and the checksum are
    the same, the readings agree one by one in value and timestamp, and
    the only record the log can gain is that warning. *)
Theorem type_code_tolerated (pre post : list string) (f : reading_fields)
    (j : Z) :
  reading_field_ok (r_reading f) = true ->
  wf_reading_tail f = true ->
  r_type f <> "00" ->
  let f00 := with_type f "00" in
  logged (_parse_resline (reading_line f00) j) = []
  /\ _parse_resline (reading_line f) j
     = ([type_warning_record (r_type f)],
        match result (_parse_resline (reading_line f00) j) with
        | Return r => Return (retype (r_type f) r)
        | Raise e => Raise e
        end)
  /\ (_INFO_SIZE + 1 <= len pre -> post <> [] ->
      forall log0 res0,
        _parse_result (pre ++ reading_line f00 :: post) = (log0, Return res0) ->
        exists log1 res1,
          _parse_result (pre ++ reading_line f :: post) = (log1, Return res1)
          /\ info res1 = info res0
          /\ checksum res1 = checksum res0
          /\ Forall2 (fun r0 r1 => value r1 = value r0
                                   /\ timestamp r1 = timestamp r0)
                     (reslog res0) (reslog res1)
          /\ forall r, In r log1 ->
                       In r log0 \/ r = type_warning_record (r_type f)).
Proof.
  intros Hr Hwf Hty f00.
  assert (Hwf0 : wf_reading_tail f00 = true) by now apply wf_with_type_00.
  assert (Hr0 : reading_field_ok (r_reading f00) = true) by exact Hr.
  assert (Hline0 : forall k, _parse_resline (reading_line f00) k
                             = ([], reading_record f00)).
  { intros k. unfold reading_line.
    now rewrite (parse_resline_fields f00 "" k Hr0 Hwf0 (or_introl eq_refl)). }
  assert (Hline : forall k, _parse_resline (reading_line f) k
                            = ([type_warning_record (r_type f)],
                               match reading_record f00 with
                               | Return r => Return (retype (r_type f) r)
                               | Raise e => Raise e
                               end)).
  { intros k. unfold reading_line.
    rewrite (parse_resline_fields f "" k Hr Hwf (or_introl eq_refl)).
    rewrite (reading_record_with_type f). unfold type_warning.
    apply String.eqb_neq in Hty. now rewrite Hty. }
  split; [now rewrite Hline0 |].
  split; [now rewrite Hline, Hline0 |].
  intros Hpre Hpost log0 res0 Hres.
  set (data0 := (pre ++ reading_line f00 :: post)%list) in *.
  set (data1 := (pre ++ reading_line f :: post)%list).
  destruct (parse_result_Return data0 log0 res0 Hres)
    as (l1 & l2 & l3 & line & Hinfo & Hn & Hlen & H5 & Hmap & Hck & Hsum & ->).
  set (n := device_nrresults_ (info res0)) in *.
  assert (Hlens : len data1 = len data0)
    by (unfold data0, data1; now rewrite !len_app_cons).
  assert (Hpost' : 1 <= len post).
  { destruct post; [congruence |]. unfold len. cbn [length]. lia. }
  assert (Hlen0 : len data0 = len pre + 1 + len post)
    by (unfold data0; apply len_app_cons).
  assert (Hother : forall k, 0 <= k -> k <> len pre ->
                             getitem data1 k = getitem data0 k)
    by (intros k H0 Hk; now apply getitem_app_other).
  unfold _INFO_SIZE in *.
  destruct (mapM_Forall2
              (fun r0 r1 => value r1 = value r0 /\ timestamp r1 = timestamp r0)
              (type_warning_record (r_type f))
              (fun k => line <- lift (getitem data0 k) ;; _parse_resline line k)
              (fun k => line <- lift (getitem data1 k) ;; _parse_resline line k)
              (range (5 + 1) (5 + 1 + n)))
    with (lg0 := l2) (rl0 := reslog res0)
    as (l2' & rl' & Hmap' & Hrel & Hlogs); [| exact Hmap |].
  { intros k l0 r0 Hk Hstep. apply range_In in Hk.
    destruct (Z.eq_dec k (len pre)) as [->|Hne].
    - unfold data0 in Hstep. rewrite getitem_app_here, bind_Return in Hstep.
      rewrite Hline0 in Hstep. inversion Hstep as [[Hl0 Hr0']].
      exists [type_warning_record (r_type f)], (retype (r_type f) r0).
      split; [| split].
      + unfold data1. rewrite getitem_app_here, bind_Return, Hline.
        now rewrite Hr0'.
      + now split.
      + intros r [<-|[]]. now right.
    - exists l0, r0. split; [| split].
      + rewrite (Hother k) by lia. exact Hstep.
      + now split.
      + intros r Hr'. now left. }
  exists (l1 ++ l2' ++ l3)%list, (mkResult (info res0) rl' (checksum res0)).
  split; [| split; [reflexivity | split; [reflexivity | split]]].
  - apply (parse_result_intro data1 l1 l2' l3 (info res0) rl' line).
    + apply (parse_info_ext data0 data1); [now symmetry | | exact Hinfo].
      intros k Hk. unfold _INFO_SIZE in Hk. apply Hother; lia.
    + exact Hn.
    + unfold _INFO_SIZE. now rewrite Hlens.
    + unfold _INFO_SIZE. rewrite (Hother 5) by lia. exact H5.
    + exact Hmap'.
    + unfold _INFO_SIZE. fold n. rewrite (Hother (5 + 1 + n)) by lia.
      exact Hck.
    + exact Hsum.
  - exact Hrel.
  - intros r Hr'. apply in_app_or in Hr' as [Hr'|Hr'].
    + left. apply in_or_app. now left.
    + apply in_app_or in Hr' as [Hr'|Hr'].
      * destruct (Hlogs r Hr') as [H|H]; [| now right].
        left. apply in_or_app. right. apply in_or_app. now left.
      * left. apply in_or_app. right. apply in_or_app. now right.
Qed.

Lemma type_code_tolerated_witness :
  _parse_resline "123  Feb  03 2017 08:15 07 0x00" 6
  = ([mkLog WARNING "TYPE == 07  NORMALLY type == 00" []],
     Return (mkResLine (Finite 123) 3 2 2017 8 15
                       (mkDatetime 2017 2 3 8 15 0) "123" "07" "0x00"))
  /\ exists log1 res1,
       _parse_result (two_readings_before
                        ++ "123  Feb  03 2017 08:15 07 0x00"
                        :: two_readings_after)%list
       = (log1, Return res1)
       /\ info res1 = info two_readings_result
       /\ checksum res1 = checksum two_readings_result
       /\ Forall2 (fun r0 r1 => value r1 = value r0
                                /\ timestamp r1 = timestamp r0)
                  (reslog two_readings_result) (reslog res1)
       /\ forall r, In r log1 -> In r [] \/ r = type_warning_record "07".
Proof.
  destruct (type_code_tolerated two_readings_before two_readings_after
              feb_reading_07 6)
    as (_ & H & Hresp); [reflexivity | reflexivity | discriminate |].
  split; [exact H |].
  apply (Hresp ltac:(vm_compute; discriminate) ltac:(discriminate)
               [] two_readings_result eq_refl).
Defined.

(* ================================================================= *)
(** ** The matcher finds nothing but matches *)

Section MatcherSound.

Lemma run_sound r :
  forall p s g x,
    In x (run r (p, s) g) ->
    exists w,
      s = w ++ snd (snd x)
      /\ fst (snd x) = (p + String.length w)%nat
      /\ matches r p w (snd (snd x)) g (fst x).
Proof.
  induction r as [l | rs | r1 IH1 r2 IH2 | r1 IH1 r2 IH2 | r IH n | name r IH
                 | | ]; intros p s g x Hx.
  - rewrite run_Lit in Hx. cbn [fst snd] in Hx.
    destruct (eat l s) as [s'|] eqn:E; [| contradiction].
    destruct Hx as [<-|[]]. cbn [fst snd].
    exists l. split; [now apply eat_sound | split; [reflexivity | constructor]].
  - cbn [run snd fst] in Hx. destruct s as [|c s]; [contradiction |].
    destruct (in_cls rs c) eqn:Hc; [| contradiction].
    destruct Hx as [<-|[]]. cbn [fst snd].
    exists (String c "").
    split; [reflexivity | split; [cbn; lia | now constructor]].
  - rewrite run_Seq in Hx. apply in_flat_map in Hx as ([g1 [p1 s1]] & Hy & Hx).
    cbn [fst snd] in Hx.
    destruct (IH1 _ _ _ _ Hy) as (w1 & -> & Hp1 & M1).
    destruct (IH2 _ _ _ _ Hx) as (w2 & Hs1 & Hp2 & M2).
    cbn [fst snd] in *. subst p1.
    exists (w1 ++ w2). repeat split.
    + now rewrite Hs1, append_assoc.
    + rewrite Hp2, length_append. lia.
    + rewrite Hs1 in M1. now apply m_Seq with (g1 := g1).
  - rewrite run_Alt in Hx. apply in_app_or in Hx as [Hx|Hx].
    + destruct (IH1 _ _ _ _ Hx) as (w & Hs & Hp & M).
      exists w. repeat split; [assumption | assumption | now apply m_AltL].
    + destruct (IH2 _ _ _ _ Hx) as (w & Hs & Hp & M).
      exists w. repeat split; [assumption | assumption | now apply m_AltR].
  - revert p s g x Hx. induction n as [|n IHn]; intros p s g x Hx.
    + destruct Hx as [<-|[]]. cbn [fst snd].
      exists "". split; [reflexivity | split; [cbn; lia | constructor]].
    + rewrite run_Rep_S in Hx.
      apply in_flat_map in Hx as ([g1 [p1 s1]] & Hy & Hx).
      cbn [fst snd] in Hx.
      destruct (IH _ _ _ _ Hy) as (w1 & -> & Hp1 & M1).
      destruct (IHn _ _ _ _ Hx) as (w2 & Hs1 & Hp2 & M2).
      cbn [fst snd] in *. subst p1.
      exists (w1 ++ w2). repeat split.
      * now rewrite Hs1, append_assoc.
      * rewrite Hp2, length_append. lia.
      * rewrite Hs1 in M1. now apply m_RepS with (g1 := g1).
  - rewrite run_Grp in Hx. apply in_map_iff in Hx as ([g1 [p1 s1]] & <- & Hy).
    destruct (IH _ _ _ _ Hy) as (w & -> & Hp & M).
    cbn [fst snd] in *. subst p1.
    exists w. repeat split.
    replace (p + String.length w - p)%nat with (String.length w) by lia.
    rewrite take_append. now constructor.
  - cbn [run fst] in Hx. destruct (Nat.eqb_spec p 0) as [->|]; [| contradiction].
    destruct Hx as [<-|[]]. cbn [fst snd].
    exists "". split; [reflexivity | split; [reflexivity | constructor]].
  - cbn [run snd] in Hx.
    destruct s as [|c [|d s]]; [| | contradiction].
    + destruct Hx as [<-|[]]. cbn [fst snd].
      exists "". split; [reflexivity | split; [cbn; lia |]].
      constructor. now left.
    + destruct (Ascii.eqb_spec c LF) as [->|]; [| contradiction].
      destruct Hx as [<-|[]]. cbn [fst snd].
      exists "". split; [reflexivity | split; [cbn; lia |]].
      constructor. now right.
Qed.

(** [pattern.match(s)] answers with a match of the whole pattern at the
    start of [s]. *)
Lemma match_sound r s m :
  match_ r s = Some m -> exists w rest, s = w ++ rest /\ matches r O w rest [] m.
Proof.
  unfold match_. destruct (run r (O, s) []) as [|x l] eqn:E; [discriminate |].
  intros H. injection H as <-.
  destruct (run_sound r O s [] x) as (w & Hs & _ & M); [rewrite E; now left |].
  now exists w, (snd (snd x)).
Qed.

End MatcherSound.

(* ================================================================= *)
(** ** Reading a match backwards *)

Section MatchesInversion.

Lemma matches_Lit_inv l p w rest g g' :
  matches (Lit l) p w rest g g' -> w = l /\ g' = g.
Proof. intros H. inversion H; subst. now split. Qed.

Lemma matches_Cls_inv rs p w rest g g' :
  matches (Cls rs) p w rest g g' ->
  exists c, w = String c "" /\ in_cls rs c = true /\ g' = g.
Proof. intros H. inversion H; subst. now exists c. Qed.

Lemma matches_Seq_inv r1 r2 p w rest g g' :
  matches (Seq r1 r2) p w rest g g' ->
  exists w1 w2 g1,
    w = w1 ++ w2 /\ matches r1 p w1 (w2 ++ rest) g g1
    /\ matches r2 (p + String.length w1)%nat w2 rest g1 g'.
Proof. intros H. inversion H; subst. now exists w1, w2, g1. Qed.

Lemma matches_Alt_inv r1 r2 p w rest g g' :
  matches (Alt r1 r2) p w rest g g' ->
  matches r1 p w rest g g' \/ matches r2 p w rest g g'.
Proof. intros H. inversion H; subst; [now left | now right]. Qed.

Lemma matches_Grp_inv name r p w rest g g' :
  matches (Grp name r) p w rest g g' ->
  exists g1, g' = (name, w) :: g1 /\ matches r p w rest g g1.
Proof. intros H. inversion H; subst. now exists g1. Qed.

Lemma matches_Bol_inv p w rest g g' :
  matches Bol p w rest g g' -> w = "" /\ g' = g.
Proof. intros H. inversion H; subst. now split. Qed.

Lemma matches_Eol_inv p w rest g g' :
  matches Eol p w rest g g' -> w = "" /\ g' = g /\ at_end rest.
Proof. intros H. inversion H; subst. now repeat split. Qed.

Lemma matches_Rep_Cls_inv rs n :
  forall p w rest g g',
    matches (Rep (Cls rs) n) p w rest g g' ->
    String.length w = n /\ all (in_cls rs) w = true /\ g' = g.
Proof.
  induction n as [|n IH]; intros p w rest g g' H; inversion H; subst.
  - now repeat split.
  - match goal with
    | H1 : matches (Cls rs) _ _ _ _ _, H2 : matches (Rep (Cls rs) n) _ _ _ _ _
      |- _ =>
        apply matches_Cls_inv in H1 as (c & -> & Hc & ->);
        apply IH in H2 as (Hl & Ha & ->)
    end.
    cbn. rewrite Hc, Ha, Hl. now repeat split.
Qed.

Lemma matches_digits n p w rest g g' :
  matches (Rep digit n) p w rest g g' -> digits n w = true /\ g' = g.
Proof.
  intros H. apply matches_Rep_Cls_inv in H as (Hl & Ha & ->).
  rewrite (all_ext _ _ w in_cls_digit) in Ha.
  split; [| reflexivity]. unfold digits. now rewrite Hl, Nat.eqb_refl, Ha.
Qed.

(** A literal, then the rest of the sequence. *)
Lemma matches_Lit_then l r p w rest g g' :
  matches (Seq (Lit l) r) p w rest g g' ->
  exists w2, w = l ++ w2 /\ matches r (p + String.length l)%nat w2 rest g g'.
Proof.
  intros H. apply matches_Seq_inv in H as (w1 & w2 & g1 & -> & H1 & H2).
  apply matches_Lit_inv in H1 as [-> ->]. now exists w2.
Qed.

(** A group, then the rest of the sequence. *)
Lemma matches_Grp_then name r1 r p w rest g g' :
  matches (Seq (Grp name r1) r) p w rest g g' ->
  exists w1 w2 g1,
    w = w1 ++ w2 /\ matches r1 p w1 (w2 ++ rest) g g1
    /\ matches r (p + String.length w1)%nat w2 rest ((name, w1) :: g1) g'.
Proof.
  intros H. apply matches_Seq_inv in H as (w1 & w2 & g1 & -> & H1 & H2).
  apply matches_Grp_inv in H1 as (g0 & -> & H1). now exists w1, w2, g0.
Qed.

Lemma matches_month p w rest g g' :
  matches (Seq upper (Rep lower 2)) p w rest g g' ->
  month_shape w = true /\ g' = g.
Proof.
  intros H. apply matches_Seq_inv in H as (w1 & w2 & g1 & -> & H1 & H2).
  apply matches_Cls_inv in H1 as (a & -> & Ha & ->).
  apply matches_Rep_Cls_inv in H2 as (Hl & Hw & ->).
  destruct w2 as [|b [|c [|d w2]]]; try discriminate.
  unfold in_cls in Ha, Hw. cbn [all existsb fst snd] in Ha, Hw.
  rewrite !orb_false_r, andb_true_r in *.
  apply andb_prop in Hw as [Hb Hc].
  split; [| reflexivity]. cbn [append month_shape]. now rewrite Ha, Hb, Hc.
Qed.

Lemma matches_hm p w rest g g' :
  matches (Seq (Rep digit 2) (Seq (Lit ":") (Rep digit 2))) p w rest g g' ->
  exists hh mm,
    w = hh ++ ":" ++ mm /\ digits 2 hh = true /\ digits 2 mm = true /\ g' = g.
Proof.
  intros H. apply matches_Seq_inv in H as (hh & w2 & g1 & -> & H1 & H2).
  apply matches_digits in H1 as [Hh ->].
  apply matches_Lit_then in H2 as (mm & -> & H2).
  apply matches_digits in H2 as [Hm ->].
  now exists hh, mm.
Qed.

Lemma matches_hms p w rest g g' :
  matches (Seq (Rep digit 2) (Seq (Lit ":") (Seq (Rep digit 2)
             (Seq (Lit ":") (Rep digit 2))))) p w rest g g' ->
  exists hh mm ss,
    w = hh ++ ":" ++ mm ++ ":" ++ ss /\ digits 2 hh = true
    /\ digits 2 mm = true /\ digits 2 ss = true /\ g' = g.
Proof.
  intros H. apply matches_Seq_inv in H as (hh & w2 & g1 & -> & H1 & H2).
  apply matches_digits in H1 as [Hh ->].
  apply matches_Lit_then in H2 as (w3 & -> & H2).
  apply matches_Seq_inv in H2 as (mm & w4 & g2 & -> & H2 & H3).
  apply matches_digits in H2 as [Hm ->].
  apply matches_Lit_then in H3 as (ss & -> & H3).
  apply matches_digits in H3 as [Hs ->].
  now exists hh, mm, ss.
Qed.

Lemma matches_sentinel p w rest g g' :
  matches (Seq (Lit "0x0") (Cls [("0"%char, "1"%char)])) p w rest g g' ->
  exists c, w = "0x0" ++ String c "" /\ in_range "0" "1" c = true /\ g' = g.
Proof.
  intros H. apply matches_Lit_then in H as (w2 & -> & H).
  apply matches_Cls_inv in H as (c & -> & Hc & ->).
  exists c. repeat split.
  unfold in_cls in Hc. cbn [existsb fst snd] in Hc.
  now rewrite orb_false_r in Hc.
Qed.

Lemma matches_reading_field p w rest g g' :
  matches (Alt (Lit "") (Rep digit 3)) p w rest g g' ->
  reading_field_ok w = true /\ g' = g.
Proof.
  intros H. apply matches_Alt_inv in H as [H|H].
  - apply matches_Lit_inv in H as [-> ->]. now split.
  - apply matches_digits in H as [Hd ->].
    split; [| reflexivity]. unfold reading_field_ok. now rewrite Hd, orb_true_r.
Qed.

(** Every line the reading pattern accepts is laid out from fields. *)
Lemma match_reading_inv line m :
  match_ _READING_RE line = Some m ->
  exists f e,
    line = reading_text f e
    /\ reading_field_ok (r_reading f) = true
    /\ wf_reading_tail f = true
    /\ at_end e
    /\ m = reading_groups f.
Proof.
  intros H. apply match_sound in H as (w & e & -> & M).
  unfold _READING_RE in M. cbn [seq_of] in M.
  apply matches_Seq_inv in M as (w0 & w1 & g0 & -> & MB & M).
  apply matches_Bol_inv in MB as [-> ->].
  apply matches_Grp_then in M as (wr & w2 & g1 & -> & Mr & M).
  apply matches_reading_field in Mr as [Hr ->].
  apply matches_Lit_then in M as (w3 & -> & M).
  apply matches_Grp_then in M as (wm & w4 & g2 & -> & Mm & M).
  apply matches_month in Mm as [Hm ->].
  apply matches_Lit_then in M as (w5 & -> & M).
  apply matches_Grp_then in M as (wd & w6 & g3 & -> & Md & M).
  apply matches_digits in Md as [Hd ->].
  apply matches_Lit_then in M as (w7 & -> & M).
  apply matches_Grp_then in M as (wy & w8 & g4 & -> & My & M).
  apply matches_digits in My as [Hy ->].
  apply matches_Lit_then in M as (w9 & -> & M).
  apply matches_Grp_then in M as (wt & w10 & g5 & -> & Mt & M).
  apply matches_hm in Mt as (hh & mm & -> & Hhh & Hmm & ->).
  apply matches_Lit_then in M as (w11 & -> & M).
  apply matches_Grp_then in M as (wty & w12 & g6 & -> & Mty & M).
  apply matches_digits in Mty as [Hty ->].
  apply matches_Lit_then in M as (w13 & -> & M).
  apply matches_Grp_then in M as (ws & w14 & g7 & -> & Ms & M).
  apply matches_sentinel in Ms as (c & -> & Hc & ->).
  apply matches_Eol_inv in M as (-> & -> & He).
  exists (mkReading wr wm wd wy hh mm wty c), e.
  split; [| split; [exact Hr | split; [| split; [exact He | reflexivity]]]].
  - unfold reading_text, reading_tail.
    cbn [r_reading r_month r_day r_year r_hh r_mm r_type r_sentinel].
    rewrite !append_assoc. reflexivity.
  - unfold wf_reading_tail.
    cbn [r_month r_day r_year r_hh r_mm r_type r_sentinel].
    now rewrite Hm, Hd, Hy, Hhh, Hmm, Hty, Hc.
Qed.

(** Every line the clock pattern accepts is laid out from fields. *)
Lemma match_clock_inv line m :
  match_ _CLOCK_RE line = Some m ->
  exists c e,
    line = clock_text c e /\ wf_clock c = true /\ at_end e
    /\ m = clock_groups c.
Proof.
  intros H. apply match_sound in H as (w & e & -> & M).
  unfold _CLOCK_RE in M. cbn [seq_of] in M.
  apply matches_Seq_inv in M as (w0 & w1 & g0 & -> & MB & M).
  apply matches_Bol_inv in MB as [-> ->].
  apply matches_Grp_then in M as (wm & w4 & g2 & -> & Mm & M).
  apply matches_month in Mm as [Hm ->].
  apply matches_Lit_then in M as (w5 & -> & M).
  apply matches_Grp_then in M as (wd & w6 & g3 & -> & Md & M).
  apply matches_digits in Md as [Hd ->].
  apply matches_Lit_then in M as (w7 & -> & M).
  apply matches_Grp_then in M as (wy & w8 & g4 & -> & My & M).
  apply matches_digits in My as [Hy ->].
  apply matches_Lit_then in M as (w9 & -> & M).
  apply matches_Grp_then in M as (wt & w10 & g5 & -> & Mt & M).
  apply matches_hms in Mt as (hh & mm & ss & -> & Hhh & Hmm & Hss & ->).
  apply matches_Eol_inv in M as (-> & -> & He).
  exists (mkClock wm wd wy hh mm ss), e.
  split; [| split; [| split; [exact He | reflexivity]]].
  - unfold clock_text. cbn [c_month c_day c_year c_hh c_mm c_ss].
    rewrite !append_assoc. reflexivity.
  - unfold wf_clock. cbn [c_month c_day c_year c_hh c_mm c_ss].
    now rewrite Hm, Hd, Hy, Hhh, Hmm, Hss.
Qed.

End MatchesInversion.

(* ================================================================= *)
(** ** What the line parsers return and raise, for every line *)

Section LineParsersTotal.

Lemma datetime_Return y m d hh mm ss t :
  datetime_ y m d hh mm ss = Return t ->
  t = mkDatetime y m d hh mm ss /\ valid_datetime t = true.
Proof.
  unfold datetime_.
  destruct (between 1 y 9999 && between 1 m 12
            && between 1 d (days_in_month y m) && between 0 hh 23
            && between 0 mm 59 && between 0 ss 59) eqn:E; [| discriminate].
  intros H. injection H as <-. split; [reflexivity | exact E].
Qed.

Lemma datetime_Raise y m d hh mm ss e :
  datetime_ y m d hh mm ss = Raise e -> e = ValueError BadDate.
Proof.
  unfold datetime_. destruct (_ && _); [discriminate |]. congruence.
Qed.

Lemma digit_value c : is_digit c = true -> 0 <= ord c - ord "0" <= 9.
Proof.
  destruct c as [[] [] [] [] [] [] [] []]; intros H; vm_compute in H;
    try discriminate; split; vm_compute; intros; discriminate.
Qed.

Lemma digits2_bound w : digits 2 w = true -> 0 <= decimal 0 w <= 99.
Proof.
  intros H. pose proof (digits_all _ _ H) as Ha.
  destruct w as [|a [|b [|c w]]]; try discriminate.
  cbn [all] in Ha. apply andb_prop in Ha as [Ha Hb].
  apply andb_prop in Hb as [Hb _].
  pose proof (digit_value _ Ha). pose proof (digit_value _ Hb).
  cbn [decimal]. lia.
Qed.

Lemma digits3_bound w : digits 3 w = true -> 0 <= decimal 0 w <= 999.
Proof.
  intros H. pose proof (digits_all _ _ H) as Ha.
  destruct w as [|a [|b [|c [|d w]]]]; try discriminate.
  cbn [all] in Ha. apply andb_prop in Ha as [Ha Hb].
  apply andb_prop in Hb as [Hb Hc]. apply andb_prop in Hc as [Hc _].
  pose proof (digit_value _ Ha). pose proof (digit_value _ Hb).
  pose proof (digit_value _ Hc).
  cbn [decimal]. lia.
Qed.

Lemma dict_getitem_Raise d k e :
  dict_getitem d k = Raise e -> e = KeyError k.
Proof.
  induction d as [|[k' v] d IH]; cbn [dict_getitem]; [congruence |].
  destruct (String.eqb k' k); [discriminate | exact IH].
Qed.

Lemma not_in_month_table k e :
  dict_getitem _MONTH_MATCHES k = Raise e ->
  ~ In k (map fst _MONTH_MATCHES).
Proof.
  intros H Hin. cbn in Hin.
  repeat (destruct Hin as [<-|Hin]; [discriminate H |]). exact Hin.
Qed.

(** [_parse_resline] on any line: the pattern refuses it, or it is laid
    out from fields and the outcome is read off the fields. *)
Lemma parse_resline_cases line j :
  _parse_resline line j
  = raise (InvalidResponse ("error line " ++ fmt_d j ++ " = " ++ line))
  \/ exists f e,
      line = reading_text f e
      /\ reading_field_ok (r_reading f) = true
      /\ wf_reading_tail f = true
      /\ at_end e
      /\ _parse_resline line j = (type_warning (r_type f), reading_record f).
Proof.
  destruct (match_ _READING_RE line) as [m|] eqn:E.
  - right. destruct (match_reading_inv line m E) as (f & e & -> & Hr & Hwf & He & _).
    exists f, e. repeat split; try assumption.
    now apply parse_resline_fields.
  - left. unfold _parse_resline. now rewrite E.
Qed.

(** What [reading_record] returns. *)
Lemma reading_record_Return f r :
  reading_field_ok (r_reading f) = true ->
  reading_record f = Return r ->
  digits 3 (r_reading f) = true
  /\ exists m,
      dict_getitem _MONTH_MATCHES (r_month f) = Return m
      /\ valid_datetime (timestamp r) = true
      /\ r = mkResLine (Finite (decimal 0 (r_reading f)))
                       (decimal 0 (r_day f)) m (decimal 0 (r_year f))
                       (decimal 0 (r_hh f)) (decimal 0 (r_mm f))
                       (mkDatetime (decimal 0 (r_year f)) m
                                   (decimal 0 (r_day f)) (decimal 0 (r_hh f))
                                   (decimal 0 (r_mm f)) 0)
                       (r_reading f) (r_type f)
                       ("0x0" ++ String (r_sentinel f) "").
Proof.
  intros Hr. unfold reading_record.
  unfold reading_field_ok in Hr. apply orb_prop in Hr as [Hr|Hr].
  - apply String.eqb_eq in Hr. rewrite Hr. discriminate.
  - rewrite (float_digits _ (digits_nonempty _ _ Hr) (digits_all _ _ Hr)).
    destruct (dict_getitem _MONTH_MATCHES (r_month f)) as [m|]; [| discriminate].
    cbv zeta.
    destruct (datetime_ _ _ _ _ _ _) as [t|] eqn:Et; [| discriminate].
    apply datetime_Return in Et as [-> Hv].
    intros H. injection H as <-. split; [exact Hr |].
    exists m. repeat split. exact Hv.
Qed.

(** What [reading_record] raises. *)
Lemma reading_record_Raise f ex :
  reading_field_ok (r_reading f) = true ->
  reading_record f = Raise ex ->
  ex = ValueError (BadFloat "")
  \/ (ex = KeyError (r_month f)
      /\ ~ In (r_month f) (map fst _MONTH_MATCHES))
  \/ ex = ValueError BadDate.
Proof.
  intros Hr. unfold reading_record.
  unfold reading_field_ok in Hr. apply orb_prop in Hr as [Hr|Hr].
  - apply String.eqb_eq in Hr. rewrite Hr. cbn. intros H. left. congruence.
  - rewrite (float_digits _ (digits_nonempty _ _ Hr) (digits_all _ _ Hr)).
    destruct (dict_getitem _MONTH_MATCHES (r_month f)) as [m|ex'] eqn:Em.
    + cbv zeta. destruct (datetime_ _ _ _ _ _ _) as [t|ex'] eqn:Et;
        [discriminate |].
      apply datetime_Raise in Et. intros H. right. right. congruence.
    + pose proof (not_in_month_table _ _ Em) as Hn.
      apply dict_getitem_Raise in Em. intros H. right. left.
      split; [congruence | exact Hn].
Qed.

End LineParsersTotal.

(** X1.  Whatever line [_parse_resline] returns a record for, the value
    of the record is finite: it is the number written by the three digits
    kept in [READING], between 0 and 999.  No line gives the infinite
    value. *)
Theorem reading_value_finite (line : string) (j : Z) (l : list LogRecord)
    (r : ResLine) :
  _parse_resline line j = (l, Return r) ->
  digits 3 (READING r) = true
  /\ value r = Finite (decimal 0 (READING r))
  /\ 0 <= decimal 0 (READING r) <= 999.
Proof.
  intros H.
  destruct (parse_resline_cases line j) as [E | (f & e & _ & Hr & _ & _ & E)];
    rewrite E in H; [discriminate |].
  injection H as _ H.
  destruct (reading_record_Return f r Hr H) as (Hd & m & _ & _ & ->).
  cbn [READING value]. repeat split; try assumption; now apply digits3_bound.
Qed.

Lemma reading_value_finite_witness :
  value (mkResLine (Finite 123) 3 6 2017 8 15 (mkDatetime 2017 6 3 8 15 0)
                   "123" "00" "0x00")
  = Finite 123.
Proof.
  exact (proj1 (proj2 (reading_value_finite
                         "123  Jun  03 2017 08:15 00 0x00" 6 []
                         (mkResLine (Finite 123) 3 6 2017 8 15
                            (mkDatetime 2017 6 3 8 15 0) "123" "00" "0x00")
                         eq_refl))).
Defined.

(** X2.  Every record [_parse_resline] returns carries a timestamp that
    [datetime.datetime] accepted (year 1 to 9999, month 1 to 12, a day of
    that month, hour up to 23, minute up to 59), made of the record's own
    year, month, day, hour and minute, with zero seconds. *)
Theorem reading_timestamp_valid (line : string) (j : Z) (l : list LogRecord)
    (r : ResLine) :
  _parse_resline line j = (l, Return r) ->
  timestamp r = mkDatetime (year r) (month r) (day r) (hour r) (minute r) 0
  /\ valid_datetime (timestamp r) = true.
Proof.
  intros H.
  destruct (parse_resline_cases line j) as [E | (f & e & _ & Hr & _ & _ & E)];
    rewrite E in H; [discriminate |].
  injection H as _ H.
  destruct (reading_record_Return f r Hr H) as (_ & m & _ & Hv & Hrec).
  split; [now rewrite Hrec | exact Hv].
Qed.

Lemma reading_timestamp_valid_witness :
  valid_datetime (mkDatetime 2017 6 3 8 15 0) = true.
Proof.
  exact (proj2 (reading_timestamp_valid
                  "123  Jun  03 2017 08:15 00 0x00" 6 []
                  (mkResLine (Finite 123) 3 6 2017 8 15
                            (mkDatetime 2017 6 3 8 15 0) "123" "00" "0x00")
                  eq_refl)).
Defined.

(** X3.  When [_parse_resline] returns a record, the type code kept in
    it is two digits, the sentinel kept in it is [0x00] or [0x01], and
    the log holds the warning for that type code and nothing else: it is
    empty exactly when the code is [00]. *)
Theorem reading_type_and_log (line : string) (j : Z) (l : list LogRecord)
    (r : ResLine) :
  _parse_resline line j = (l, Return r) ->
  digits 2 (TYPE r) = true
  /\ (SENTINEL r = "0x00" \/ SENTINEL r = "0x01")
  /\ l = (if String.eqb (TYPE r) "00" then []
          else [mkLog WARNING ("TYPE == " ++ TYPE r ++ "  NORMALLY type == 00")
                      []]).
Proof.
  intros H.
  destruct (parse_resline_cases line j) as [E | (f & e & _ & Hr & Hwf & _ & E)];
    rewrite E in H; [discriminate |].
  injection H as <- H.
  destruct (reading_record_Return f r Hr H) as (_ & m & _ & _ & ->).
  destruct (wf_reading_tail_inv f Hwf) as (_ & _ & _ & _ & _ & Hty & Hs).
  cbn [TYPE SENTINEL].
  split; [exact Hty |]. split; [| reflexivity].
  destruct (r_sentinel f) as [[] [] [] [] [] [] [] []];
    vm_compute in Hs; try discriminate; [now right | now left].
Qed.

Lemma reading_type_and_log_witness :
  [mkLog WARNING "TYPE == 07  NORMALLY type == 00" []]
  = (if String.eqb "07" "00" then []
     else [mkLog WARNING ("TYPE == " ++ "07" ++ "  NORMALLY type == 00") []]).
Proof.
  exact (proj2 (proj2 (reading_type_and_log
                         "123  Feb  03 2017 08:15 07 0x00" 6
                         [mkLog WARNING "TYPE == 07  NORMALLY type == 00" []]
                         (mkResLine (Finite 123) 3 2 2017 8 15
                            (mkDatetime 2017 2 3 8 15 0) "123" "07" "0x00")
                         eq_refl))).
Defined.

(** X4.  [_parse_resline] raises nothing but these: the invalid-response
    error with the line number and the line, for a line the pattern
    refuses; [ValueError] from [float] for an empty value field;
    [KeyError] for a month of the right shape that is not in the table;
    [ValueError] from [datetime.datetime] for a date or time out of
    range. *)
Theorem parse_resline_exceptions (line : string) (j : Z) (ex : exn) :
  result (_parse_resline line j) = Raise ex ->
  ex = InvalidResponse ("error line " ++ fmt_d j ++ " = " ++ line)
  \/ ex = ValueError (BadFloat "")
  \/ (exists k, ex = KeyError k /\ month_shape k = true
                /\ ~ In k (map fst _MONTH_MATCHES))
  \/ ex = ValueError BadDate.
Proof.
  intros H.
  destruct (parse_resline_cases line j) as [E | (f & e & _ & Hr & Hwf & _ & E)];
    rewrite E in H; unfold result, raise in H; cbn [snd] in H.
  - left. congruence.
  - destruct (reading_record_Raise f ex Hr H) as [-> | [[-> Hn] | ->]];
      [now right; left | | now right; right; right].
    right. right. left. exists (r_month f).
    destruct (wf_reading_tail_inv f Hwf) as (Hm & _). now repeat split.
Qed.

Lemma parse_resline_exceptions_witness :
  ValueError BadDate
  = InvalidResponse ("error line " ++ fmt_d 6 ++ " = "
                       ++ "123  Feb  30 2017 08:15 00 0x00")
  \/ ValueError BadDate = ValueError (BadFloat "")
  \/ (exists k, ValueError BadDate = KeyError k /\ month_shape k = true
                /\ ~ In k (map fst _MONTH_MATCHES))
  \/ ValueError BadDate = ValueError BadDate.
Proof.
  exact (parse_resline_exceptions "123  Feb  30 2017 08:15 00 0x00" 6
           (ValueError BadDate) eq_refl).
Defined.

Section ClockAndCount.

(** [_parse_clock] on any text: the pattern refuses it, or it is laid out
    from fields and the outcome is read off the fields. *)
Lemma parse_clock_cases s :
  _parse_clock s = raise (InvalidResponse s)
  \/ exists c e,
      s = clock_text c e /\ wf_clock c = true /\ at_end e
      /\ _parse_clock s = lift (clock_value c).
Proof.
  destruct (match_ _CLOCK_RE s) as [m|] eqn:E.
  - right. destruct (match_clock_inv s m E) as (c & e & -> & Hwf & He & _).
    exists c, e. repeat split; try assumption. now apply parse_clock_fields.
  - left. unfold _parse_clock. now rewrite E.
Qed.

(** [_parse_nrresults] on any text. *)
Lemma parse_nrresults_cases s :
  _parse_nrresults s = raise (InvalidResponse s)
  \/ exists n, _parse_nrresults s = ret n /\ 0 <= n <= 999.
Proof.
  unfold _parse_nrresults. rewrite match_empty, match_count.
  destruct (String.eqb (chomp s) "Log Empty END").
  - right. exists 0. split; [reflexivity | lia].
  - destruct (digits 3 (chomp s)) eqn:Hd; [| now left].
    right. exists (decimal 0 (chomp s)).
    split; [| now apply digits3_bound].
    unfold ret, lift. f_equal.
    destruct (chomp_spec s) as [H|H]; rewrite H at 1.
    + exact (int_digits_n _ _ Hd).
    + exact (int_digits_LF _ (digits_nonempty _ _ Hd) (digits_all _ _ Hd)).
Qed.

End ClockAndCount.

(** X5.  [_parse_clock] never logs.  What it returns is a timestamp that
    [datetime.datetime] accepted; what it raises is the invalid-response
    error carrying its argument (the pattern refused it), [KeyError] for a
    month of the right shape that is not in the table, or [ValueError] for
    a date or time out of range. *)
Theorem parse_clock_outcomes :
  forall s,
    logged (_parse_clock s) = []
    /\ match result (_parse_clock s) with
       | Return t => valid_datetime t = true
       | Raise ex =>
           ex = InvalidResponse s
           \/ (exists k, ex = KeyError k /\ month_shape k = true
                         /\ ~ In k (map fst _MONTH_MATCHES))
           \/ ex = ValueError BadDate
       end.
Proof.
  intros s.
  destruct (parse_clock_cases s) as [E | (c & e & _ & Hwf & _ & E)];
    rewrite E; cbn [logged result fst snd raise lift].
  - split; [reflexivity | now left].
  - split; [reflexivity |]. unfold clock_value.
    destruct (dict_getitem _MONTH_MATCHES (c_month c)) as [m|ex] eqn:Em.
    + destruct (datetime_ _ _ _ _ _ _) as [t|ex] eqn:Et.
      * now apply datetime_Return in Et as [_ Hv].
      * apply datetime_Raise in Et. now right; right.
    + right. left. exists (c_month c).
      pose proof (not_in_month_table _ _ Em) as Hn.
      apply dict_getitem_Raise in Em. subst ex.
      destruct (wf_clock_inv c Hwf) as (Hm & _). now repeat split.
Qed.

(** X6.  [_parse_nrresults] never logs.  The count it returns lies
    between 0 and 999, and the only exception it raises is the
    invalid-response error carrying its argument. *)
Theorem parse_nrresults_outcomes :
  forall s,
    logged (_parse_nrresults s) = []
    /\ match result (_parse_nrresults s) with
       | Return n => 0 <= n <= 999
       | Raise ex => ex = InvalidResponse s
       end.
Proof.
  intros s.
  destruct (parse_nrresults_cases s) as [E | (n & E & Hn)]; rewrite E;
    cbn [logged result fst snd raise ret]; now split.
Qed.

(* ================================================================= *)
(** ** The info block, for every response *)

Section InfoBlock.

Lemma parse_clock_Return s l t :
  _parse_clock s = (l, Return t) -> l = [] /\ valid_datetime t = true.
Proof.
  intros H.
  destruct (parse_clock_cases s) as [E | (c & e & _ & _ & _ & E)];
    rewrite E in H; [discriminate |].
  unfold lift in H. injection H as <- H. split; [reflexivity |].
  unfold clock_value in H.
  destruct (dict_getitem _MONTH_MATCHES (c_month c)); [| discriminate].
  now apply datetime_Return in H as [_ Hv].
Qed.

Lemma parse_nrresults_Return s l n :
  _parse_nrresults s = (l, Return n) -> l = [] /\ 0 <= n <= 999.
Proof.
  intros H.
  destruct (parse_nrresults_cases s) as [E | (n' & E & Hn)];
    rewrite E in H; [discriminate |].
  unfold ret in H. injection H as <- <-. now split.
Qed.

Lemma parse_nrresults_Raise s l ex :
  _parse_nrresults s = (l, Raise ex) -> ex = InvalidResponse s.
Proof.
  intros H.
  destruct (parse_nrresults_cases s) as [E | (n' & E & Hn)];
    rewrite E in H; [unfold raise in H; congruence | discriminate].
Qed.

(** What the info parser has checked when it returns. *)
Lemma parse_info_Return data l inf :
  _parse_info data = (l, Return inf) ->
  l = []
  /\ _INFO_SIZE <= len data
  /\ getitem data 0 = Return ""
  /\ getitem data 1 = Return (device_version_ inf)
  /\ getitem data 2 = Return (software_revision_ inf)
  /\ device_serialno_ inf = "N/A"
  /\ device_glucose_unit_ inf = MG_DL
  /\ (exists d3, getitem data 3 = Return d3
                 /\ _parse_clock d3 = ret (device_current_date_time_ inf))
  /\ (exists d4, getitem data 4 = Return d4
                 /\ _parse_nrresults d4 = ret (device_nrresults_ inf)).
Proof.
  unfold _parse_info. intros H.
  apply bind_Return_inv in H as (la & u & lb & Hg & H & ->).
  apply guard_Return_inv in Hg as [Hlen ->].
  apply bind_Return_inv in H as (l0 & d0 & lc & H0 & H & ->).
  apply lift_Return_inv in H0 as [H0 ->].
  apply bind_Return_inv in H as (ld & u' & le & Hb & H & ->).
  apply guard_Return_inv in Hb as [Hb ->].
  apply negb_false_iff, String.eqb_eq in Hb. subst d0.
  apply bind_Return_inv in H as (l1 & d1 & lf & H1 & H & ->).
  apply lift_Return_inv in H1 as [H1 ->].
  apply bind_Return_inv in H as (l2 & d2 & lg & H2 & H & ->).
  apply lift_Return_inv in H2 as [H2 ->].
  apply bind_Return_inv in H as (l3 & d3 & lh & H3 & H & ->).
  apply lift_Return_inv in H3 as [H3 ->].
  apply bind_Return_inv in H as (lk & clock & li & Hc & H & ->).
  apply bind_Return_inv in H as (l4 & d4 & lj & H4 & H & ->).
  apply lift_Return_inv in H4 as [H4 ->].
  apply bind_Return_inv in H as (ln & n & lm & Hn & H & ->).
  destruct (parse_clock_Return _ _ _ Hc) as [-> _].
  destruct (parse_nrresults_Return _ _ _ Hn) as [-> _].
  assert (E : lm = [] /\ inf = mkInfo d1 d2 "N/A" MG_DL clock n)
    by (unfold ret in H; now inversion H).
  destruct E as [-> ->]. cbn [List.app].
  cbn [device_version_ software_revision_ device_serialno_
       device_glucose_unit_ device_current_date_time_ device_nrresults_].
  apply Z.ltb_ge in Hlen.
  repeat split; try assumption; [now exists d3 | now exists d4].
Qed.

(** The info parser on a response that is too short. *)
Lemma parse_info_short data :
  len data < _INFO_SIZE ->
  exists m,
    _parse_info data
    = ([mkLog DEBUG m [data]], Raise (InvalidResponse (join NL data))).
Proof.
  intros H. unfold _parse_info.
  destruct (Z.ltb_spec (len data) _INFO_SIZE); [| lia].
  eexists. reflexivity.
Qed.

(** The info parser on a response that is long enough. *)
Lemma parse_info_long data d0 d1 d2 d3 d4 :
  _INFO_SIZE <= len data ->
  getitem data 0 = Return d0 -> getitem data 1 = Return d1 ->
  getitem data 2 = Return d2 -> getitem data 3 = Return d3 ->
  getitem data 4 = Return d4 ->
  _parse_info data
  = if negb (String.eqb d0 "")
    then ([mkLog DEBUG ("_parse_info:  first line not blank:  " ++ "%r")
                 [data]],
          Raise (InvalidResponse (join NL data)))
    else clock <- _parse_clock d3 ;;
         nrresults <- _parse_nrresults d4 ;;
         ret (mkInfo d1 d2 "N/A" MG_DL clock nrresults).
Proof.
  intros Hlen H0 H1 H2 H3 H4. unfold _parse_info.
  destruct (Z.ltb_spec (len data) _INFO_SIZE); [lia |].
  rewrite bind_ret, H0, bind_Return.
  destruct (negb (String.eqb d0 "")); [reflexivity |].
  rewrite bind_ret, H1, bind_Return, H2, bind_Return, H3, bind_Return, H4.
  destruct (_parse_clock d3) as [l3 [t|e]]; [| reflexivity].
  now rewrite !bind_Return_log, bind_Return.
Qed.

End InfoBlock.

(** X7.  When [_parse_info] returns, nothing was logged, the response
    has at least five lines and starts with an empty line, version and
    revision are lines 1 and 2 as they stand, the serial number is [N/A]
    and the unit mg/dL whatever the meter sent, the clock is a timestamp
    [datetime.datetime] accepted and the result count lies between 0 and
    999. *)
Theorem parse_info_accepted (data : list string) (l : list LogRecord)
    (inf : Info) :
  _parse_info data = (l, Return inf) ->
  l = []
  /\ 5 <= len data
  /\ getitem data 0 = Return ""
  /\ getitem data 1 = Return (device_version_ inf)
  /\ getitem data 2 = Return (software_revision_ inf)
  /\ device_serialno_ inf = "N/A"
  /\ device_glucose_unit_ inf = MG_DL
  /\ valid_datetime (device_current_date_time_ inf) = true
  /\ 0 <= device_nrresults_ inf <= 999.
Proof.
  intros H.
  destruct (parse_info_Return data l inf H)
    as (Hl & Hlen & H0 & H1 & H2 & Hs & Hu & (d3 & _ & Hc) & (d4 & _ & Hn)).
  destruct (parse_clock_Return _ _ _ Hc) as [_ Hv].
  destruct (parse_nrresults_Return _ _ _ Hn) as [_ Hb].
  repeat split; try assumption; lia.
Qed.

Lemma parse_info_accepted_witness :
  device_serialno_ (info two_readings_result) = "N/A"
  /\ 0 <= device_nrresults_ (info two_readings_result) <= 999.
Proof.
  destruct (parse_info_accepted two_readings [] (info two_readings_result)
              eq_refl)
    as (_ & _ & _ & _ & _ & Hs & _ & _ & Hn).
  now split.
Defined.

(** X8.  [_parse_info] raises nothing but these: the invalid-response
    error carrying all lines joined by line feeds, when there are fewer
    than five lines or the first line is not empty (one debug record is
    logged, and nothing else is looked at: an empty response is such a
    case); whatever [_parse_clock] raises on line 3; the invalid-response
    error carrying line 4, when that is no count.  Lines 0 to 4 are only
    read once the length is known, so no index is ever out of range. *)
Theorem parse_info_exceptions (data : list string) (ex : exn) :
  result (_parse_info data) = Raise ex ->
  ((len data < 5 \/ getitem data 0 <> Return "")
   /\ ex = InvalidResponse (join NL data)
   /\ exists m, logged (_parse_info data) = [mkLog DEBUG m [data]])
  \/ (5 <= len data /\ logged (_parse_info data) = []
      /\ ((exists d, getitem data 3 = Return d
                     /\ result (_parse_clock d) = Raise ex)
          \/ (exists d, getitem data 4 = Return d
                        /\ ex = InvalidResponse d))).
Proof.
  intros H.
  destruct (Z.ltb_spec (len data) _INFO_SIZE) as [Hlt|Hge].
  - left. destruct (parse_info_short data Hlt) as (m & E).
    rewrite E in H |- *. unfold result in H. cbn [snd] in H.
    split; [left; exact Hlt |]. split; [congruence | now exists m].
  - unfold _INFO_SIZE in Hge.
    destruct (getitem_Return data 0) as (d0 & H0 & _); [lia |].
    destruct (getitem_Return data 1) as (d1 & H1 & _); [lia |].
    destruct (getitem_Return data 2) as (d2 & H2 & _); [lia |].
    destruct (getitem_Return data 3) as (d3 & H3 & _); [lia |].
    destruct (getitem_Return data 4) as (d4 & H4 & _); [lia |].
    pose proof (parse_info_long data d0 d1 d2 d3 d4 Hge H0 H1 H2 H3 H4) as E.
    destruct (String.eqb_spec d0 "") as [->|Hd0]; cbn [negb] in E.
    + right. split; [exact Hge |].
      destruct (_parse_clock d3) as [l3 [t|e3]] eqn:Ec.
      * destruct (parse_clock_Return _ _ _ Ec) as [-> _].
        rewrite bind_Return_log in E.
        destruct (_parse_nrresults d4) as [l4 [n|e4]] eqn:En.
        -- rewrite E in H. discriminate H.
        -- pose proof (parse_nrresults_Raise _ _ _ En) as ->.
           destruct (parse_nrresults_cases d4) as [E'|(n & E' & _)];
             rewrite E' in En; [| discriminate].
           unfold raise in En. injection En as <-.
           cbn in E. rewrite E in H |- *. unfold result in H. cbn [snd] in H.
           split; [reflexivity |]. right. exists d4.
           split; [exact H4 | congruence].
      * assert (Hl3 : l3 = []).
        { destruct (parse_clock_cases d3) as [E'|(c & e & _ & _ & _ & E')];
            rewrite E' in Ec; unfold raise, lift in Ec; congruence. }
        subst l3. cbn in E. rewrite E in H |- *.
        unfold result in H. cbn [snd] in H.
        split; [reflexivity |]. left. exists d3.
        split; [exact H3 |]. rewrite Ec. unfold result. cbn [snd]. congruence.
    + left. rewrite E in H |- *. unfold result in H. cbn [snd] in H.
      split; [right; congruence |]. split; [congruence | now eexists].
Qed.

Lemma parse_info_exceptions_witness :
  ((len (@nil string) < 5 \/ getitem (@nil string) 0 <> Return "")
   /\ InvalidResponse "" = InvalidResponse (join NL [])
   /\ exists m, logged (_parse_info []) = [mkLog DEBUG m [[]]])
  \/ (5 <= len (@nil string) /\ logged (_parse_info []) = []
      /\ ((exists d, getitem [] 3 = Return d
                     /\ result (_parse_clock d) = Raise (InvalidResponse ""))
          \/ (exists d, getitem [] 4 = Return d
                        /\ InvalidResponse "" = InvalidResponse d))).
Proof.
  exact (parse_info_exceptions [] (InvalidResponse "") eq_refl).
Defined.

(* ================================================================= *)
(** ** Accepted responses and the device they give *)

Section Accepted.

Lemma parse_resline_Return line j l r :
  _parse_resline line j = (l, Return r) ->
  l = type_warning (TYPE r) /\ reading_ok r.
Proof.
  intros H.
  destruct (parse_resline_cases line j) as [E | (f & e & _ & Hr & _ & _ & E)];
    rewrite E in H; [discriminate |].
  injection H as <- H.
  destruct (reading_record_Return f r Hr H) as (Hd & m & _ & Hv & Hrec).
  pose proof (digits3_bound _ Hd) as Hb.
  rewrite Hrec in Hv |- *. cbn [TYPE]. split; [reflexivity |].
  unfold reading_ok. cbn [value READING timestamp year month day hour minute].
  now repeat split.
Qed.

Lemma parse_checksum_log line l c :
  _parse_checksum line = (l, Return c) -> l = [].
Proof.
  unfold _parse_checksum.
  destruct (match_ _CHECKSUM_RE line) as [m|]; [| discriminate].
  intros H. apply bind_Return_inv in H as (l1 & s & l2 & H1 & H2 & ->).
  apply lift_Return_inv in H1 as [_ ->].
  now apply lift_Return_inv in H2 as [_ ->].
Qed.

(** The log and the results of a loop that returns. *)
Lemma mapM_log {A B} (F : A -> M B) (W : B -> list LogRecord)
    (P : B -> Prop) (l : list A) :
  (forall a la b, F a = (la, Return b) -> la = W b /\ P b) ->
  forall lg bs, mapM F l = (lg, Return bs) ->
                lg = flat_map W bs /\ Forall P bs.
Proof.
  intros HF. induction l as [|a l IH]; intros lg bs H.
  - cbn in H. inversion H; subst. now split.
  - cbn [mapM] in H.
    apply bind_Return_inv in H as (la & b & lb & Ha & H & ->).
    apply bind_Return_inv in H as (lc & bs' & ld & Hl & H & ->).
    assert (E : ld = [] /\ bs = b :: bs') by (unfold ret in H; now inversion H).
    destruct E as [-> ->].
    destruct (HF _ _ _ Ha) as [-> Hb]. destruct (IH _ _ Hl) as [-> Hbs].
    cbn [flat_map]. rewrite List.app_nil_r. split; [reflexivity |].
    now constructor.
Qed.

(** What [_fetch_device_information] has checked when it returns. *)
Lemma fetch_Return data log dev :
  _fetch_device_information data = (log, Return dev) ->
  _parse_result data
  = (log, Return (mkResult (info_ dev) (device_results_ dev)
                           (device_checksum_ dev)))
  /\ device_checksum_ dev
     = checksum_gotten data (device_nrresults_ (info_ dev)).
Proof.
  unfold _fetch_device_information. intros H.
  apply bind_Return_inv in H as (l1 & res & l2 & Hres & H & ->).
  apply bind_Return_inv in H as (l3 & u & l4 & Hck & H & ->).
  assert (E : l4 = [] /\ dev = mkDevice (info res) (reslog res) (checksum res))
    by (unfold ret in H; now inversion H).
  destruct E as [-> ->]. clear H.
  cbn [info_ device_results_ device_checksum_] in *.
  destruct (parse_result_Return data l1 res Hres)
    as (_ & _ & _ & _ & _ & Hn & _).
  destruct (Z.gtb_spec (device_nrresults_ (info res)) 0) as [_|]; [| lia].
  destruct (Z.eqb_spec (checksum res)
              (checksum_gotten data (device_nrresults_ (info res))))
    as [E|]; [| discriminate].
  cbn [negb] in Hck. unfold ret in Hck. injection Hck as <-.
  rewrite !List.app_nil_r. split; [| exact E].
  rewrite Hres. now destruct res.
Qed.

End Accepted.

(** X9.  When [_parse_result] accepts a response, the result count [n]
    lies between 1 and 999, the response has exactly [n + 7] lines (at
    least 8, at most 1006), line 5 is empty, every reading has a finite
    value between 0 and 999 and a timestamp that [datetime.datetime]
    accepted, and the log holds no debug record: it is the warnings for
    the type codes of the readings, in order. *)
Theorem parse_result_accepted (data : list string) (log : list LogRecord)
    (res : Result) :
  _parse_result data = (log, Return res) ->
  let n := device_nrresults_ (info res) in
  1 <= n <= 999
  /\ len data = n + 7
  /\ getitem data 5 = Return ""
  /\ Forall (fun r => value r = Finite (decimal 0 (READING r))
                      /\ 0 <= decimal 0 (READING r) <= 999
                      /\ valid_datetime (timestamp r) = true)
            (reslog res)
  /\ log = flat_map (fun r => if String.eqb (TYPE r) "00" then []
                              else [type_warning_record (TYPE r)])
                    (reslog res).
Proof.
  intros Hres n.
  destruct (parse_result_Return data log res Hres)
    as (l1 & l2 & l3 & line & Hinfo & Hn & Hlen & H5 & Hmap & _ & Hsum & ->).
  fold n in Hn, Hlen, Hmap.
  destruct (parse_info_Return _ _ _ Hinfo)
    as (-> & _ & _ & _ & _ & _ & _ & _ & (d4 & _ & Hcount)).
  destruct (parse_nrresults_Return _ _ _ Hcount) as [_ Hb]. fold n in Hb.
  rewrite (parse_checksum_log _ _ _ Hsum).
  unfold read_lines in Hmap.
  apply (mapM_log _ (fun r => type_warning (TYPE r)) reading_ok) in Hmap
    as [-> Hok].
  - unfold _INFO_SIZE in *.
    split; [lia |]. split; [lia |]. split; [exact H5 |].
    split; [| cbn [List.app]; now rewrite List.app_nil_r].
    apply Forall_impl with (2 := Hok).
    intros r (Hv & Hb' & _ & Ht). now repeat split.
  - intros j lj r Hj.
    apply bind_Return_inv in Hj as (la & ln & lb & Hg & Hp & ->).
    apply lift_Return_inv in Hg as [_ ->].
    exact (parse_resline_Return _ _ _ _ Hp).
Qed.

Lemma parse_result_accepted_witness :
  1 <= 2 <= 999 /\ len two_readings = 2 + 7.
Proof.
  destruct (parse_result_accepted two_readings [] two_readings_result eq_refl)
    as (Hn & Hlen & _).
  now split.
Defined.



(* ================================================================= *)
(** ** The checksum against corrupted readings *)

Section Corruption.

Lemma sum_ord_append a b : sum_ord (a ++ b) = sum_ord a + sum_ord b.
Proof. induction a as [|c a IH]; cbn [append sum_ord]; [reflexivity | lia]. Qed.

Lemma concat_cons x xs :
  String.concat "" (x :: xs) = x ++ String.concat "" xs.
Proof. destruct xs; cbn [String.concat]; [now rewrite append_nil_r | reflexivity]. Qed.

Lemma sum_ord_concat_app l1 l2 :
  sum_ord (String.concat "" (l1 ++ l2))
  = sum_ord (String.concat "" l1) + sum_ord (String.concat "" l2).
Proof.
  induction l1 as [|x l1 IH]; [reflexivity |].
  change ((x :: l1) ++ l2)%list with (x :: (l1 ++ l2))%list.
  rewrite !concat_cons, !sum_ord_append, IH. lia.
Qed.

Lemma ord_range c : 0 <= ord c < 256.
Proof. unfold ord. pose proof (N_ascii_bounded c). lia. Qed.

Lemma ord_inj c c' : ord c = ord c' -> c = c'.
Proof.
  unfold ord. intros H. apply N2Z.inj in H.
  now rewrite <- (ascii_N_embedding c), <- (ascii_N_embedding c'), H.
Qed.

(** The sum the checksum is taken over, for a response whose line after
    [pre] is [x] and is not the last. *)
Lemma sum_ord_response pre x post :
  post <> [] ->
  sum_ord (String.concat "" (removelast (pre ++ x :: post)))
  = sum_ord (String.concat "" pre) + sum_ord x
    + sum_ord (String.concat "" (removelast post)).
Proof.
  intros Hpost. rewrite removelast_app by discriminate.
  replace (removelast (x :: post)) with (x :: removelast post)
    by (destruct post; [congruence | reflexivity]).
  rewrite sum_ord_concat_app, concat_cons, sum_ord_append. lia.
Qed.

Lemma checksum_gotten_changes pre post a b c c' n :
  post <> [] -> c <> c' ->
  checksum_gotten (pre ++ (a ++ String c' b) :: post) n
  <> checksum_gotten (pre ++ (a ++ String c b) :: post) n.
Proof.
  intros Hpost Hc. unfold checksum_gotten.
  rewrite !sum_ord_response by exact Hpost.
  rewrite !sum_ord_append. cbn [sum_ord].
  pose proof (ord_range c). pose proof (ord_range c').
  assert (ord c <> ord c') by (intros E; now apply ord_inj in E).
  change (2 ^ 16) with 65536.
  set (S0 := sum_ord (String.concat "" pre)).
  set (S1 := sum_ord (String.concat "" (removelast post))).
  set (K := (ord CR + ord LF) * (_INFO_SIZE + n) + ord LF).
  intros E.
  pose proof (Z.div_mod (S0 + (sum_ord a + (ord c' + sum_ord b)) + S1
                         + (ord CR + ord LF) * (_INFO_SIZE + n) + ord LF)
                        65536 ltac:(lia)) as E1.
  pose proof (Z.div_mod (S0 + (sum_ord a + (ord c + sum_ord b)) + S1
                         + (ord CR + ord LF) * (_INFO_SIZE + n) + ord LF)
                        65536 ltac:(lia)) as E2.
  rewrite E in E1. lia.
Qed.

End Corruption.

(** X11.  A changed character in the reading block does not go
    unnoticed: when a response gives a device, and one character of a
    line after the info block and before the last line is replaced by
    another so that the assembler still accepts the response, then
    [_fetch_device_information] raises the checksum error for it,
    carrying the declared checksum, which is the one of the device, and a
    computed checksum that differs from it. *)
Theorem corrupted_character_detected (pre post : list string)
    (a b : string) (c c' : ascii) (log : list LogRecord) (dev : Device) :
  5 <= len pre -> post <> [] -> c <> c' ->
  _fetch_device_information (pre ++ (a ++ String c b)%string :: post)%list
  = (log, Return dev) ->
  forall log1 res1,
    _parse_result (pre ++ (a ++ String c' b)%string :: post)%list
    = (log1, Return res1) ->
    exists cg,
      cg <> device_checksum_ dev
      /\ _fetch_device_information (pre ++ (a ++ String c' b)%string :: post)%list
         = (log1, Raise (InvalidChecksum (device_checksum_ dev) cg)).
Proof.
  intros Hpre Hpost Hc Hdev log1 res1 Hres1.
  set (data0 := (pre ++ (a ++ String c b)%string :: post)%list) in *.
  set (data1 := (pre ++ (a ++ String c' b)%string :: post)%list) in *.
  destruct (fetch_Return data0 log dev Hdev) as [Hres0 Hck0].
  destruct (parse_result_Return _ _ _ Hres0)
    as (k1 & k2 & k3 & line0 & Hinfo0 & Hn0 & Hlen0 & _ & _ & Hline0 & Hsum0 & _).
  destruct (parse_result_Return _ _ _ Hres1)
    as (l1 & l2 & l3 & line1 & Hinfo1 & Hn1 & Hlen1 & _ & _ & Hline1 & Hsum1 & _).
  cbn [info checksum] in Hinfo0, Hn0, Hlen0, Hline0, Hsum0.
  assert (Hpost' : 1 <= len post).
  { destruct post; [congruence |]. unfold len. cbn [length]. lia. }
  assert (Hother : forall k, 0 <= k -> k <> len pre ->
                             getitem data1 k = getitem data0 k)
    by (intros k H0 Hk; now apply getitem_app_other).
  assert (Hlens : len data0 = len data1)
    by (unfold data0, data1; now rewrite !len_app_cons).
  assert (Hinfo : info res1 = info_ dev).
  { pose proof (parse_info_ext data0 data1 k1 (info_ dev) Hlens) as Hx.
    rewrite Hx in Hinfo1; [congruence | | exact Hinfo0].
    intros k Hk. unfold _INFO_SIZE in Hk. apply Hother; lia. }
  rewrite Hinfo in *.
  set (n := device_nrresults_ (info_ dev)) in *.
  assert (Hlen : len data0 = len pre + 1 + len post)
    by (unfold data0; apply len_app_cons).
  unfold _INFO_SIZE in *.
  rewrite (Hother (5 + 1 + n)) in Hline1 by lia.
  assert (Hce : checksum res1 = device_checksum_ dev) by congruence.
  exists (checksum_gotten data1 n). split.
  - rewrite Hck0. fold n. apply checksum_gotten_changes; assumption.
  - unfold _fetch_device_information.
    rewrite Hres1, bind_Return_log. cbn [info_ device_checksum_].
    rewrite Hinfo. fold n.
    destruct (Z.gtb_spec n 0) as [_|]; [| lia].
    rewrite Hce.
    destruct (Z.eqb_spec (device_checksum_ dev) (checksum_gotten data1 n))
      as [E|_].
    + exfalso. rewrite Hck0 in E. fold n in E.
      now apply (checksum_gotten_changes pre post a b c c' n Hpost Hc).
    + cbn. now rewrite List.app_nil_r.
Qed.

Lemma corrupted_character_detected_witness :
  exists cg,
    cg <> 5049
    /\ _fetch_device_information
         (two_readings_before
            ++ ("12" ++ String "4" "  Feb  03 2017 08:15 00 0x00")%string
            :: two_readings_after)%list
       = ([], Raise (InvalidChecksum 5049 cg)).
Proof.
  apply (corrupted_character_detected two_readings_before two_readings_after
           "12" "  Feb  03 2017 08:15 00 0x00" "3" "4" []
           (mkDevice (info two_readings_result) (reslog two_readings_result)
                     5049))
    with (res1 := mkResult (info two_readings_result)
                    [ mkResLine (Finite 124) 3 2 2017 8 15
                                (mkDatetime 2017 2 3 8 15 0) "124" "00" "0x00";
                      mkResLine (Finite 87) 28 1 2017 19 40
                                (mkDatetime 2017 1 28 19 40 0) "087" "00" "0x01" ]
                    5049);
    try reflexivity; discriminate.
Defined.

(* ================================================================= *)
(** ** The checksum line, for every line *)

Section ChecksumLineTotal.

Lemma consumes_hex4 w :
  hexdigits4 w = true ->
  consumes (Rep (Cls [("0"%char, "9"%char); ("A"%char, "F"%char)]) 4) w
           (fun g => g).
Proof.
  unfold hexdigits4. intros H. apply andb_prop in H as [Hl Ha].
  apply consumes_Rep; [now apply Nat.eqb_eq |].
  rewrite (all_ext _ hex_upper); [exact Ha |]. exact in_cls_hex.
Qed.

Lemma match_checksum h e :
  hexdigits4 h = true -> at_end e ->
  match_ _CHECKSUM_RE (checksum_text h e) = Some [("checksum", "0x" ++ h)].
Proof.
  intros Hh He. unfold match_, _CHECKSUM_RE, checksum_text. cbn [seq_of].
  rewrite run_Seq_Bol.
  rewrite <- (append_assoc "0x" h ("  END" ++ e)).
  over ("0x" ++ h)
       ltac:(apply consumes_Grp;
             apply (consumes_Seq _ _ _ _ (fun g => g) (fun g => g));
             [apply consumes_Lit | now apply consumes_hex4]).
  over "  END" ltac:(apply consumes_Lit).
  now rewrite (run_Eol_at_end e _ _ He).
Qed.

Lemma match_checksum_inv line m :
  match_ _CHECKSUM_RE line = Some m ->
  exists h e,
    line = checksum_text h e /\ hexdigits4 h = true /\ at_end e
    /\ m = [("checksum", "0x" ++ h)].
Proof.
  intros H. apply match_sound in H as (w & e & -> & M).
  unfold _CHECKSUM_RE in M. cbn [seq_of] in M.
  apply matches_Seq_inv in M as (w0 & w1 & g0 & -> & MB & M).
  apply matches_Bol_inv in MB as [-> ->].
  apply matches_Grp_then in M as (wc & w2 & g1 & -> & Mc & M).
  apply matches_Lit_then in Mc as (h & -> & Mc).
  apply matches_Rep_Cls_inv in Mc as (Hl & Ha & ->).
  rewrite (all_ext _ _ h in_cls_hex) in Ha.
  apply matches_Lit_then in M as (w3 & -> & M).
  apply matches_Eol_inv in M as (-> & -> & He).
  exists h, e. split; [| split; [| split; [exact He | reflexivity]]].
  - unfold checksum_text. rewrite !append_assoc. reflexivity.
  - unfold hexdigits4. rewrite Hl. exact Ha.
Qed.

(** [int(s, 16)] on [0x] and four upper-case hexadecimal digits. *)
Lemma int16_hex4 h :
  hexdigits4 h = true ->
  exists v, int16 ("0x" ++ h) = Return v /\ hexadecimal 0 h = Some v
            /\ 0 <= v < 2 ^ 16.
Proof.
  unfold hexdigits4. intros H. apply andb_prop in H as [Hl Ha].
  destruct h as [|a [|b [|c [|d [|x h]]]]]; try discriminate.
  cbn [all] in Ha. fold (hex_upper a) (hex_upper b) (hex_upper c)
                        (hex_upper d) in Ha.
  apply andb_prop in Ha as [Ha H]. apply andb_prop in H as [Hb H].
  apply andb_prop in H as [Hc H]. apply andb_prop in H as [Hd _].
  destruct (hex_upper_digit _ Ha) as (da & Ea & Ba).
  destruct (hex_upper_digit _ Hb) as (db & Eb & Bb).
  destruct (hex_upper_digit _ Hc) as (dc & Ec & Bc).
  destruct (hex_upper_digit _ Hd) as (dd & Ed & Bd).
  exists (16 * (16 * (16 * (16 * 0 + da) + db) + dc) + dd).
  split; [| split; [| change (2 ^ 16) with 65536; lia]].
  - unfold int16, strip. cbn [append lstrip].
    change (is_space "0") with false. cbv iota.
    rewrite rstrip_no_space
      by (cbn [all]; now rewrite (hex_upper_not_space _ Ha),
            (hex_upper_not_space _ Hb), (hex_upper_not_space _ Hc),
            (hex_upper_not_space _ Hd)).
    cbn [hexadecimal]. now rewrite Ea, Eb, Ec, Ed.
  - cbn [hexadecimal]. now rewrite Ea, Eb, Ec, Ed.
Qed.

Lemma parse_checksum_fields h e :
  hexdigits4 h = true -> at_end e ->
  _parse_checksum (checksum_text h e) = lift (int16 ("0x" ++ h)).
Proof.
  intros Hh He. unfold _parse_checksum. rewrite (match_checksum h e Hh He).
  change (group [("checksum", "0x" ++ h)] "checksum") with (Return ("0x" ++ h)).
  now rewrite bind_Return.
Qed.

End ChecksumLineTotal.

(** X12.  [_parse_checksum] accepts exactly the lines made of [0x], four
    upper-case hexadecimal digits and [  END] (a line feed may follow):
    for such a line it returns the 16-bit value of the digits, and for
    every other line it raises the invalid-response error, whose text is
    the characters of the line with a line feed between each two.  It
    never logs. *)
Theorem parse_checksum_outcomes :
  forall line,
    (forall h e, line = "0x" ++ h ++ "  END" ++ e ->
                 hexdigits4 h = true -> at_end e ->
                 exists c, _parse_checksum line = ret c
                           /\ hexadecimal 0 h = Some c /\ 0 <= c < 2 ^ 16)
    /\ ((forall h e, hexdigits4 h = true -> at_end e ->
                     line <> "0x" ++ h ++ "  END" ++ e) ->
        _parse_checksum line = raise (InvalidResponse (join NL (chars line)))).
Proof.
  intros line. split.
  - intros h e -> Hh He.
    destruct (int16_hex4 h Hh) as (v & Ev & Eh & Hv).
    exists v. split; [| now split].
    change ("0x" ++ h ++ "  END" ++ e) with (checksum_text h e).
    now rewrite (parse_checksum_fields h e Hh He), Ev.
  - intros Hno. unfold _parse_checksum.
    destruct (match_ _CHECKSUM_RE line) as [m|] eqn:E; [| reflexivity].
    destruct (match_checksum_inv line m E) as (h & e & -> & Hh & He & _).
    now destruct (Hno h e Hh He).
Qed.

Lemma parse_checksum_outcomes_witness :
  exists c, _parse_checksum "0x13B9  END" = ret c
            /\ hexadecimal 0 "13B9" = Some c /\ 0 <= c < 2 ^ 16.
Proof.
  exact (proj1 (parse_checksum_outcomes "0x13B9  END") "13B9" ""
               eq_refl eq_refl (or_introl eq_refl)).
Defined.

(* ================================================================= *)
(** ** Decoding the lines received *)

Section Decoding.

Lemma rstrip_crlf_suffix s :
  exists t, s = rstrip_crlf s ++ t /\ all is_crlf t = true.
Proof.
  induction s as [|c s (t & Hs & Ht)]; [now exists "" |].
  cbn [rstrip_crlf]. fold (is_crlf c).
  destruct (rstrip_crlf s) as [|d r] eqn:E.
  - cbn [append] in Hs. subst t.
    destruct (is_crlf c) eqn:Hc.
    + exists (String c s). split; [reflexivity |]. cbn [all]. now rewrite Hc, Ht.
    + exists s. now split.
  - exists t. split; [| exact Ht].
    change (String c s = String c (String d r ++ t)). now rewrite <- Hs.
Qed.

Lemma rstrip_crlf_no_trailing s :
  forall u c, rstrip_crlf s = u ++ String c "" -> is_crlf c = false.
Proof.
  induction s as [|x s IH]; intros u c H.
  - destruct u; discriminate.
  - cbn [rstrip_crlf] in H. fold (is_crlf x) in H.
    destruct (rstrip_crlf s) as [|d r] eqn:E.
    + destruct (is_crlf x) eqn:Hx; [destruct u; discriminate |].
      destruct u as [|y u]; cbn [append] in H.
      * now injection H as <-.
      * injection H as _ H. destruct u; discriminate.
    + destruct u as [|y u]; cbn [append] in H; [discriminate |].
      injection H as _ H. exact (IH u c H).
Qed.

Lemma forallb_false_In {A} (p : A -> bool) l :
  forallb p l = false -> exists a, In a l /\ p a = false.
Proof.
  induction l as [|a l IH]; cbn [forallb]; [discriminate |].
  destruct (p a) eqn:Ha; cbn [andb].
  - intros H. destruct (IH H) as (b & Hb & Hp). exists b. split; [now right | exact Hp].
  - intros _. exists a. split; [now left | exact Ha].
Qed.

End Decoding.

(** X13.  [_send_command] fails to decode exactly when some line holds a
    byte above 127.  Otherwise it returns one line for each line
    received, in order: the line received without the carriage returns
    and line feeds that end it.  What is cut off consists of carriage
    returns and line feeds only, and what is returned does not end in
    either. *)
Theorem send_command_decodes :
  forall response,
    match _send_command response with
    | None => exists line, In line response /\ is_ascii line = false
    | Some data =>
        (forall line, In line response -> is_ascii line = true)
        /\ Forall2 (fun raw d =>
                      (exists t, raw = d ++ t /\ all is_crlf t = true)
                      /\ forall u c, d = u ++ String c "" ->
                                     is_crlf c = false)
                   response data
    end.
Proof.
  intros response. unfold _send_command.
  destruct (forallb is_ascii response) eqn:E.
  - split; [now apply forallb_forall |].
    unfold decoded_response. clear E.
    induction response as [|raw response IH]; cbn [map]; constructor;
      [| exact IH].
    split; [apply rstrip_crlf_suffix | apply rstrip_crlf_no_trailing].
  - now apply forallb_false_In.
Qed.


(* ================================================================= *)
(** ** What the host reads from a device *)

(** X15.  For a device that [_fetch_device_information] returned,
    [get_readings] gives as many readings as the result count, and the
    [i]-th is the timestamp and the value of the record parsed from line
    [6 + i] of the response: transcript order is kept, every value is
    finite and every timestamp one that [datetime.datetime] accepted. *)
Theorem readings_of_fetched_device (data : list string)
    (log : list LogRecord) (dev : Device) :
  _fetch_device_information data = (log, Return dev) ->
  let n := device_nrresults_ (info_ dev) in
  len (get_readings dev) = n
  /\ forall i, 0 <= i < n ->
       exists line li r,
         getitem data (6 + i) = Return line
         /\ _parse_resline line (6 + i) = (li, Return r)
         /\ nth_error (get_readings dev) (Z.to_nat i)
            = Some (mkGlucoseReading (timestamp r) (value r))
         /\ (exists v, value r = Finite v /\ 0 <= v <= 999)
         /\ valid_datetime (timestamp r) = true.
Proof.
  intros H n. destruct (fetch_Return data log dev H) as [Hres _].
  destruct (parse_result_Return _ _ _ Hres)
    as (l1 & l2 & l3 & line & _ & Hn & _ & _ & Hmap & _ & _ & _).
  cbn [info reslog] in Hn, Hmap. fold n in Hn, Hmap.
  unfold read_lines in Hmap. apply mapM_Return in Hmap as [Hlen Hnth].
  rewrite range_length in Hlen. unfold _INFO_SIZE in *.
  split; [unfold get_readings, len; rewrite length_map, Hlen; lia |].
  intros i Hi.
  destruct (Hnth (Z.to_nat i) (6 + i)) as (la & r & Hr & Hk).
  { rewrite range_nth by lia. f_equal. lia. }
  apply bind_Return_inv in Hr as (l5 & ln & l6 & Hg & Hp & _).
  apply lift_Return_inv in Hg as [Hg _].
  destruct (parse_resline_Return _ _ _ _ Hp) as (_ & Hv & Hb & _ & Ht).
  exists ln, l6, r. repeat split; try assumption.
  - unfold get_readings. now rewrite nth_error_map, Hk.
  - now exists (decimal 0 (READING r)).
Qed.

Lemma readings_of_fetched_device_witness :
  len (get_readings (mkDevice (info two_readings_result)
                              (reslog two_readings_result) 5049)) = 2.
Proof.
  exact (proj1 (readings_of_fetched_device two_readings []
                  (mkDevice (info two_readings_result)
                            (reslog two_readings_result) 5049) eq_refl)).
Defined.

(** X16.  For a device that [_fetch_device_information] returned,
    [get_meter_info] names the model [Freestyle Lite glucometer], gives
    [N/A] as the serial number and mg/dL as the native unit, and its
    version texts are [Software version: ] followed by line 2 of the
    response and [Hardware version: ] followed by line 1; [get_datetime]
    is a timestamp that [datetime.datetime] accepted. *)
Theorem meter_info_of_fetched_device (data : list string)
    (log : list LogRecord) (dev : Device) :
  _fetch_device_information data = (log, Return dev) ->
  exists d1 d2,
    getitem data 1 = Return d1
    /\ getitem data 2 = Return d2
    /\ get_meter_info dev
       = mkMeterInfo "Freestyle Lite glucometer" "N/A"
                     ("Software version: " ++ d2, "Hardware version: " ++ d1)
                     MG_DL
    /\ valid_datetime (get_datetime dev) = true.
Proof.
  intros H. destruct (fetch_Return data log dev H) as [Hres _].
  destruct (parse_result_Return _ _ _ Hres) as (l1 & l2 & l3 & line & Hinfo & _).
  cbn [info] in Hinfo.
  destruct (parse_info_Return _ _ _ Hinfo)
    as (_ & _ & _ & H1 & H2 & Hs & Hu & (d3 & _ & Hc) & _).
  destruct (parse_clock_Return _ _ _ Hc) as [_ Hv].
  exists (device_version_ (info_ dev)), (software_revision_ (info_ dev)).
  repeat split; try assumption.
  unfold get_meter_info, get_serial_number, get_glucose_unit,
    get_software_revision, get_version.
  now rewrite Hs, Hu.
Qed.

Lemma meter_info_of_fetched_device_witness :
  exists d1 d2,
    getitem two_readings 1 = Return d1
    /\ getitem two_readings 2 = Return d2
    /\ get_meter_info (mkDevice (info two_readings_result)
                                (reslog two_readings_result) 5049)
       = mkMeterInfo "Freestyle Lite glucometer" "N/A"
                     ("Software version: " ++ d2, "Hardware version: " ++ d1)
                     MG_DL
    /\ valid_datetime (get_datetime (mkDevice (info two_readings_result)
                                 (reslog two_readings_result) 5049)) = true.
Proof.
  exact (meter_info_of_fetched_device two_readings []
           (mkDevice (info two_readings_result) (reslog two_readings_result)
                     5049) eq_refl).
Defined.

(* ================================================================= *)
(** ** Line terminators *)

Section Terminators.

Lemma rstrip_crlf_terminator t : all is_crlf t = true -> rstrip_crlf t = "".
Proof.
  induction t as [|c t IH]; [reflexivity |]. cbn [all]. intros H.
  apply andb_prop in H as [Hc Ht]. cbn [rstrip_crlf]. rewrite (IH Ht).
  fold (is_crlf c). now rewrite Hc.
Qed.

Lemma rstrip_crlf_app d t :
  ends_crlf d = false -> all is_crlf t = true -> rstrip_crlf (d ++ t) = d.
Proof.
  intros Hd Ht. induction d as [|c d IH].
  - now apply rstrip_crlf_terminator.
  - cbn [append rstrip_crlf]. fold (is_crlf c). destruct d as [|x d].
    + cbn [append]. rewrite (rstrip_crlf_terminator t Ht).
      cbn [ends_crlf] in Hd. now rewrite Hd.
    + rewrite IH by exact Hd. reflexivity.
Qed.

Lemma all_append p a b : all p (a ++ b) = all p a && all p b.
Proof.
  induction a as [|c a IH]; [reflexivity |]. cbn [append all].
  now rewrite IH, andb_assoc.
Qed.

Lemma terminator_is_ascii t : all is_crlf t = true -> is_ascii t = true.
Proof.
  unfold is_ascii. induction t as [|c t IH]; [reflexivity |]. cbn [all].
  intros H. apply andb_prop in H as [Hc Ht]. rewrite (IH Ht), andb_true_r.
  unfold is_crlf in Hc. apply orb_prop in Hc as [Hc|Hc];
    apply Ascii.eqb_eq in Hc; now subst c.
Qed.

Lemma wire_line_decoded p :
  wire_line p = true ->
  is_ascii (on_wire p) = true /\ rstrip_crlf (on_wire p) = fst p.
Proof.
  unfold wire_line, on_wire. intros H.
  apply andb_prop in H as [H Ht]. apply andb_prop in H as [Ha He].
  apply negb_true_iff in He. split.
  - unfold is_ascii in *. rewrite all_append, Ha.
    exact (terminator_is_ascii _ Ht).
  - now apply rstrip_crlf_app.
Qed.

End Terminators.

(** X17.  The carriage returns and line feeds that end the lines on the
    wire do not change what [connect] returns or raises: when every line
    is ASCII text that does not itself end in a carriage return or a line
    feed, followed by any number of carriage returns and line feeds,
    [_send_command] returns the bare texts, and the outcome of [connect]
    (the device, or the exception) is the outcome of
    [_fetch_device_information] on the bare texts. *)
Theorem connect_ignores_terminators (lines : list (string * string)) :
  forallb wire_line lines = true ->
  _send_command (map on_wire lines) = Some (map fst lines)
  /\ option_map (@result Device) (connect (map on_wire lines))
     = Some (result (_fetch_device_information (map fst lines))).
Proof.
  intros H.
  assert (E : _send_command (map on_wire lines) = Some (map fst lines)).
  { unfold _send_command, decoded_response.
    induction lines as [|p lines IH]; [reflexivity |].
    cbn [forallb] in H. apply andb_prop in H as [Hp Hl].
    destruct (wire_line_decoded p Hp) as [Ha Hd].
    specialize (IH Hl). cbn [map forallb]. rewrite Ha, Hd. cbn [andb].
    destruct (forallb is_ascii (map on_wire lines)); [| discriminate].
    now injection IH as ->. }
  split; [exact E |]. unfold connect. now rewrite E.
Qed.

Lemma connect_ignores_terminators_witness :
  _send_command (map on_wire two_readings_wire)
  = Some (map fst two_readings_wire)
  /\ option_map (@result Device) (connect (map on_wire two_readings_wire))
     = Some (result (_fetch_device_information (map fst two_readings_wire))).
Proof. exact (connect_ignores_terminators two_readings_wire eq_refl). Defined.

(* ================================================================= *)
(** ** Responses laid out from their parts *)

Section Layout.

Lemma range_nil a : range a a = [].
Proof. unfold range. now rewrite Z.sub_diag. Qed.

Lemma range_cons a b : a < b -> range a b = a :: range (a + 1) b.
Proof.
  intros H. unfold range.
  replace (Z.to_nat (b - a)) with (S (Z.to_nat (b - (a + 1)))) by lia.
  cbn [seq map]. f_equal; [lia |].
  rewrite <- seq_shift, map_map. apply map_ext. intros k. lia.
Qed.

Lemma getitem_nth {A} (l : list A) i a :
  0 <= i -> nth_error l (Z.to_nat i) = Some a -> getitem l i = Return a.
Proof.
  intros H0 Hn.
  assert (Hlt : (Z.to_nat i < length l)%nat)
    by (apply nth_error_Some; congruence).
  destruct (getitem_Return l i) as (a' & Ha & Hn'); [unfold len; lia |].
  congruence.
Qed.

Lemma not_the_empty_log s :
  digits 3 s = true -> String.eqb s "Log Empty END" = false.
Proof.
  unfold digits. intros H. apply andb_prop in H as [Hl _].
  destruct s as [|a [|b [|c [|d s]]]]; try discriminate.
  apply String.eqb_neq. discriminate.
Qed.

Lemma parse_nrresults_digits s :
  digits 3 s = true -> _parse_nrresults s = ret (decimal 0 s).
Proof.
  intros Hd. unfold _parse_nrresults. rewrite match_empty, match_count.
  rewrite (chomp_digits s (digits_all _ _ Hd)), (not_the_empty_log s Hd), Hd.
  now rewrite (int_digits_n _ _ Hd).
Qed.

(** The loop over the reading lines, on lines laid out from fields. *)
Lemma read_lines_fields fs :
  forall rs pre post,
    forallb (fun f => digits 3 (r_reading f) && wf_reading_tail f) fs = true ->
    map reading_record fs = map (@Return ResLine) rs ->
    read_lines (pre ++ map reading_line fs ++ post)%list
               (len pre) (len pre + len fs)
    = (flat_map (fun f => type_warning (r_type f)) fs, Return rs).
Proof.
  induction fs as [|f fs IH]; intros rs pre post Hwf Hrs.
  - destruct rs; [| discriminate]. unfold read_lines.
    change (len (@nil reading_fields)) with 0.
    now rewrite Z.add_0_r, range_nil.
  - destruct rs as [|r rs]; [discriminate |].
    cbn [map] in Hrs. injection Hrs as Hr Hrs.
    cbn [forallb] in Hwf. apply andb_prop in Hwf as [Hf Hwf].
    apply andb_prop in Hf as [Hd Ht].
    assert (Hlen : len (f :: fs) = 1 + len fs)
      by (unfold len; cbn [length]; lia).
    pose proof (Nat2Z.is_nonneg (length fs)) as Hpos. fold (len fs) in Hpos.
    specialize (IH rs (pre ++ [reading_line f])%list post Hwf Hrs).
    rewrite <- List.app_assoc in IH. cbn [List.app] in IH.
    replace (len (pre ++ [reading_line f])%list) with (len pre + 1) in IH
      by (unfold len; rewrite length_app; cbn [length]; lia).
    unfold read_lines in IH |- *. cbn [map List.app].
    rewrite range_cons by lia. cbn [mapM]. cbv beta.
    rewrite getitem_app_here, bind_Return. unfold reading_line at 1.
    rewrite (parse_resline_fields f "" (len pre)
               (eq_trans (f_equal (orb _) Hd) (orb_true_r _)) Ht
               (or_introl eq_refl)).
    rewrite Hr, bind_Return_log.
    replace (len pre + len (f :: fs)) with (len pre + 1 + len fs) by lia.
    rewrite IH, bind_Return_log. cbn [flat_map]. unfold ret.
    now rewrite !List.app_nil_r.
Qed.

End Layout.

(** X18.  A response laid out as the driver expects it is accepted:
    the empty line, two version lines, a well-formed clock line with a
    date that exists, a count of three digits equal to the number of
    reading lines (at least one), an empty line, reading lines with
    three-digit values, well-formed fields and dates that exist, and a
    checksum line whose four digits declare the sum that the driver
    computes over the lines before it.  [_parse_result] returns the
    versions, the clock, the count, the records of the reading lines in
    order and the declared checksum, and what it logs is the type
    warnings of the reading lines; [_fetch_device_information] then
    returns the device holding them. *)
Theorem wellformed_response_accepted (ver rev : string) (c : clock_fields)
    (count : string) (fs : list reading_fields) (h : string)
    (t : datetime) (rs : list ResLine) :
  wf_clock c = true ->
  clock_value c = Return t ->
  digits 3 count = true ->
  decimal 0 count = len fs ->
  0 < len fs ->
  forallb (fun f => digits 3 (r_reading f) && wf_reading_tail f) fs = true ->
  map reading_record fs = map (@Return ResLine) rs ->
  hexdigits4 h = true ->
  hexadecimal 0 h
  = Some (checksum_gotten (transcript ver rev c count fs h) (len fs)) ->
  let data := transcript ver rev c count fs h in
  let inf := mkInfo ver rev "N/A" MG_DL t (len fs) in
  let cg := checksum_gotten data (len fs) in
  _parse_result data
  = (flat_map (fun f => type_warning (r_type f)) fs,
     Return (mkResult inf rs cg))
  /\ result (_fetch_device_information data) = Return (mkDevice inf rs cg).
Proof.
  intros Hc Ht Hd Hn Hpos Hwf Hrs Hh Hsum data inf cg.
  fold data in Hsum. fold cg in Hsum.
  set (pre := [""; ver; rev; clock_line c; count; ""]).
  assert (Hlen : len data = _INFO_SIZE + len fs + 2).
  { unfold data, transcript, len, _INFO_SIZE.
    rewrite !length_app, length_map. cbn [length]. lia. }
  assert (Hinfo : _parse_info data = ([], Return inf)).
  { rewrite (parse_info_long data "" ver rev (clock_line c) count);
      [| unfold _INFO_SIZE in *; lia
       | apply getitem_nth; [lia | reflexivity] ..].
    cbn [String.eqb negb]. unfold clock_line.
    rewrite (parse_clock_fields c "" Hc (or_introl eq_refl)), Ht, bind_Return.
    now rewrite (parse_nrresults_digits count Hd), bind_ret, Hn. }
  assert (H5 : getitem data _INFO_SIZE = Return "")
    by (apply getitem_nth; [unfold _INFO_SIZE; lia | reflexivity]).
  pose proof (read_lines_fields fs rs pre [checksum_text h ""] Hwf Hrs)
    as Hmap.
  change (len pre) with (_INFO_SIZE + 1) in Hmap.
  assert (Hline : getitem data (_INFO_SIZE + 1 + len fs)
                  = Return (checksum_text h "")).
  { replace (_INFO_SIZE + 1 + len fs)
      with (len (pre ++ map reading_line fs)%list)
      by (unfold len, _INFO_SIZE, pre; rewrite length_app, length_map;
          cbn [length]; lia).
    unfold data, transcript. fold pre. rewrite List.app_assoc.
    apply getitem_app_here. }
  destruct (int16_hex4 h Hh) as (v & Hv & Hx & _).
  assert (Hck : _parse_checksum (checksum_text h "") = ([], Return v))
    by (now rewrite (parse_checksum_fields h "" Hh (or_introl eq_refl)), Hv).
  rewrite Hsum in Hx. injection Hx as Hx. subst v.
  pose proof (parse_result_intro data [] _ [] inf rs _ cg
                Hinfo Hpos Hlen H5 Hmap Hline Hck) as Hres.
  cbn [List.app] in Hres. rewrite List.app_nil_r in Hres.
  split; [exact Hres |].
  unfold _fetch_device_information. rewrite Hres, bind_Return_log.
  cbn [info reslog checksum info_ device_checksum_ device_nrresults_].
  fold inf.
  destruct (Z.gtb_spec (device_nrresults_ inf) 0) as [_|Hle];
    [| unfold inf in Hle; cbn [device_nrresults_] in Hle; lia].
  change (device_nrresults_ inf) with (len fs). fold cg.
  rewrite Z.eqb_refl. cbn [negb]. now rewrite bind_ret.
Qed.

Lemma wellformed_response_accepted_witness :
  _parse_result two_readings = ([], Return two_readings_result)
  /\ result (_fetch_device_information two_readings)
     = Return (mkDevice (info two_readings_result)
                        (reslog two_readings_result) 5049).
Proof.
  exact (wellformed_response_accepted "0.22" "0.22"
           (mkClock "Jan" "01" "2017" "12" "00" "00") "002"
           [mkReading "123" "Feb" "03" "2017" "08" "15" "00" "0";
            mkReading "087" "Jan" "28" "2017" "19" "40" "00" "1"]
           "13B9" (mkDatetime 2017 1 1 12 0 0) (reslog two_readings_result)
           eq_refl eq_refl eq_refl eq_refl eq_refl eq_refl eq_refl eq_refl
           eq_refl).
Defined.

(** X19.  Once the info block has parsed with result count [n], the
    assembler checks the shape of the response before it reads any
    reading line.  With [n = 0] it never returns: five lines run into the
    unbound [checksum], any other number of lines is an invalid response.
    With [n > 0] and more than five lines, a line 5 that is not empty or
    a line count other than [n + 7] is an invalid response; the error
    carries the lines joined by line feeds. *)
Theorem response_shape_checked (data : list string) (l : list LogRecord)
    (inf : Info) :
  _parse_info data = (l, Return inf) ->
  let n := device_nrresults_ inf in
  (n = 0 ->
   result (_parse_result data)
   = Raise (if (len data =? _INFO_SIZE)%Z then UnboundLocalError "checksum"
            else InvalidResponse (join NL data)))
  /\ (n <> 0 -> _INFO_SIZE < len data ->
      getitem data _INFO_SIZE <> Return "" \/ len data <> _INFO_SIZE + n + 2 ->
      result (_parse_result data) = Raise (InvalidResponse (join NL data))).
Proof.
  intros Hinfo n. split.
  - intros Hn. exact (count_zero_never_returns data l inf Hinfo Hn).
  - intros Hn Hlen H.
    apply (structural_mismatch_InvalidResponse data l inf Hinfo).
    right. fold n. repeat split; try assumption. tauto.
Qed.

Lemma response_shape_checked_witness :
  result (_parse_result empty_log) = Raise (UnboundLocalError "checksum").
Proof.
  exact (proj1 (response_shape_checked empty_log []
                  (mkInfo "0.22" "0.22" "N/A" MG_DL
                          (mkDatetime 2017 1 1 12 0 0) 0) eq_refl) eq_refl).
Defined.
